(** * UniversalConverter32: the 32-bit shim for VB6 / VFP9 hosts

    A shallow embedding of [UniversalConverter32.cpp].  The shim keeps one
    piece of mutable state, the 512-byte buffer [g_lastError]; everything
    else it does goes through the file system and through [_popen].  The
    embedding threads a [State] through a small state-and-exception monad:

    - the file system is a finite map from the path handed to
      [std::ifstream] to the bytes of the file;
    - the external tool is an oracle of the environment: given the command
      line and the file system it says what the pipe delivers and what the
      file system looks like once the child is gone;
    - the commands handed to [_popen] are logged, so that "no subprocess was
      started" is a statement about the state;
    - the secure CRT routines [strcpy_s] and [sprintf_s] are modelled with
      their capacity check: when the text plus its terminating NUL does not
      fit, they empty the destination and call the invalid-parameter
      handler. *)

From stdpp Require Import base strings gmap pretty.
From Stdlib Require Import ZArith Ascii String List Lia.

Local Open Scope Z_scope.

(** ** Status codes *)

Definition UC_SUCCESS : Z := 1.
Definition UC_FAILURE : Z := 0.
Definition UC_ERROR : Z := -1.

(** ** Strings as the C++ code uses them *)

(** A [const char*] argument is [option string]: [None] is the null
    pointer.  [strlen] is [String.length]. *)
Definition strlen (s : string) : nat := String.length s.

(** What [operator+=] and [strcpy] see of a character buffer: the text up
    to the first NUL. *)
Fixpoint c_str (s : string) : string :=
  match s with
  | "" => ""
  | String c s' => if Ascii.eqb c "000"%char then "" else String c (c_str s')
  end.

(** Text without a NUL in it: what a [const char*] can hold. *)
Fixpoint no_nul (s : string) : bool :=
  match s with
  | "" => true
  | String c s' => negb (Ascii.eqb c "000"%char) && no_nul s'
  end.

Fixpoint char_in (c : ascii) (chars : string) : bool :=
  match chars with
  | "" => false
  | String d chars' => Ascii.eqb c d || char_in c chars'
  end.

(** [std::string::find(pat)]: the first position where [pat] occurs,
    [None] for [npos]. *)
Fixpoint string_find (pat s : string) : option nat :=
  if String.prefix pat s then Some 0%nat
  else match s with
       | "" => None
       | String _ s' => S <$> string_find pat s'
       end.

(** [pat] occurs somewhere in [s]. *)
Definition occurs (pat s : string) : Prop :=
  exists pre post, s = pre +:+ pat +:+ post.

(** Whether [s] holds one of [chars]. *)
Fixpoint has_char_in (chars s : string) : bool :=
  match s with
  | "" => false
  | String c s' => char_in c chars || has_char_in chars s'
  end.

(** [std::string::find_last_of(chars)]: the last position holding one of
    [chars]. *)
Fixpoint find_last_of (chars s : string) : option nat :=
  match s with
  | "" => None
  | String c s' =>
      match find_last_of chars s' with
      | Some i => Some (S i)
      | None => if char_in c chars then Some 0%nat else None
      end
  end.

(** [s.substr(0, n)]. *)
Definition substr0 (n : nat) (s : string) : string := String.substring 0 n s.

(** [static_cast<long long>]: wrap into the signed 64-bit range. *)
Definition to_long_long (z : Z) : Z :=
  (z + 2 ^ 63) `mod` 2 ^ 64 - 2 ^ 63.

(** ** The pipe: [fgets] in chunks *)

Definition newline : ascii := "010"%char.

(** Take at most [n] characters, stopping after a newline. *)
Fixpoint fgets_split (n : nat) (stream : string) : string * string :=
  match n, stream with
  | O, _ => ("", stream)
  | _, "" => ("", "")
  | S n', String c rest =>
      if Ascii.eqb c newline then (String c "", rest)
      else let '(line, rest') := fgets_split n' rest in (String c line, rest')
  end.

(** [fgets(buffer, size, pipe)]: [None] at end of stream, otherwise the
    chunk stored in [buffer] and what is left in the pipe. *)
Definition fgets (size : nat) (stream : string) : option (string * string) :=
  match stream with
  | "" => None
  | _ => Some (fgets_split (size - 1) stream)
  end.

(** [while (fgets(buffer, sizeof(buffer), pipe.get()) != nullptr)
      result += buffer;] with [char buffer[128]]. *)
Fixpoint read_pipe (fuel : nat) (stream result : string) : string :=
  match fuel with
  | O => result
  | S fuel' =>
      match fgets 128 stream with
      | None => result
      | Some (buffer, rest) => read_pipe fuel' rest (result +:+ c_str buffer)
      end
  end.

(** ** Environment and state *)

Inductive exn :=
  | StdException (what : string)   (* caught by [catch (const std::exception& e)] *)
  | OtherException.                (* caught only by [catch (...)] *)

(** What [_popen] and the read loop come to for one command.  The pipe is
    opened with mode "r", a text-mode stream: [out] below is what that
    stream hands to [fgets], that is the output of the child after the CRT
    has read CR LF as LF and has stopped at a Ctrl-Z.  A child that never
    closes its output is not among the outcomes: such a call does not come
    back, and the statements below are about calls whose helper does. *)
Inductive pipe_result :=
  | PipeNull
      (* [_popen] returned a null pipe: nothing was started *)
  | PipeStream (out : string) (fs' : gmap string (list Byte.byte))
      (* the stream delivered [out] up to its end and the child left the
         files as [fs'] *)
  | PipeThrow (e : exn) (fs' : gmap string (list Byte.byte)).
      (* an exception left the helper, such as [std::bad_alloc] from
         [result += buffer]; the files are [fs'] by then *)

Record Env := mkEnv {
  (* the path [GetModuleFileNameA(NULL, ...)] reports *)
  module_file_name : string;
  (* the shell and the external tool *)
  popen : string -> gmap string (list Byte.byte) -> pipe_result;
  (* whether the installed invalid-parameter handler returns; the CRT's own
     handler does not, it ends the process *)
  handler_returns : bool
}.

Record State := mkState {
  g_lastError : string;                     (* [static char g_lastError[512]] *)
  files : gmap string (list Byte.byte);     (* files that open for reading *)
  spawned : list string                     (* commands handed to [_popen], latest first *)
}.

Definition g_version : string := "3.1.0".
Definition sizeof_g_lastError : nat := 512.
Definition MAX_PATH : nat := 260.

Definition set_lastError (msg : string) (st : State) : State :=
  {| g_lastError := msg; files := files st; spawned := spawned st |}.
Definition set_files (fs : gmap string (list Byte.byte)) (st : State) : State :=
  {| g_lastError := g_lastError st; files := fs; spawned := spawned st |}.
Definition log_spawn (cmd : string) (st : State) : State :=
  {| g_lastError := g_lastError st; files := files st; spawned := cmd :: spawned st |}.

(** ** State, exceptions and process termination *)

Inductive outcome (A : Type) :=
  | Normal (a : A) (st : State)
  | Throw (e : exn) (st : State)
  | Terminated.   (* the invalid-parameter handler ended the process *)
Arguments Normal {A} a st.
Arguments Throw {A} e st.
Arguments Terminated {A}.

Definition M (A : Type) : Type := State -> outcome A.

Definition ret {A} (a : A) : M A := fun st => Normal a st.

Definition bind {A B} (m : M A) (k : A -> M B) : M B := fun st =>
  match m st with
  | Normal a st' => k a st'
  | Throw e st' => Throw e st'
  | Terminated => Terminated
  end.

Notation "'let*' x := m 'in' k" := (bind m (fun x => k))
  (at level 10, x name, m at level 100, k at level 200).
Notation "m >> k" := (bind m (fun _ => k))
  (at level 90, right associativity).

(** [try { body } catch (...) { handler }] *)
Definition try_catch {A} (body : M A) (handler : exn -> M A) : M A := fun st =>
  match body st with
  | Normal a st' => Normal a st'
  | Throw e st' => handler e st'
  | Terminated => Terminated
  end.

(** No exception is on its way out: the computation returned or the
    process is gone. *)
Definition contained {A} (o : outcome A) : Prop :=
  match o with
  | Throw _ _ => False
  | _ => True
  end.

Definition get_lastError : M string := fun st => Normal (g_lastError st) st.

(** [g_lastError[0] = '\0';] *)
Definition clear_lastError : M unit := fun st => Normal () (set_lastError "" st).

(** ** The secure CRT routines *)

(** The capacity check of [strcpy_s] and [sprintf_s]: the text and its
    terminating NUL must fit in [size] bytes.  When they do not, the CRT
    puts a NUL at the start of the destination and invokes the
    invalid-parameter handler; the source ignores the value the routine
    returns if the handler lets it return. *)
Definition fits (size : Z) (text : string) : bool :=
  bool_decide (Z.of_nat (strlen text) < size).

(** The double quote, which the command line puts around paths. *)
Definition dquote : string := String "034"%char "".

Section Converter.
Context (env : Env).

(** The text did not fit.  The process ends here unless a handler that
    returns was installed. *)
Definition invalid_parameter : M unit := fun st =>
  if handler_returns env then Normal () st else Terminated.

(** [strcpy_s(g_lastError, sizeof(g_lastError), src)] *)
Definition strcpy_s_lastError (src : string) : M unit :=
  if fits (Z.of_nat sizeof_g_lastError) src
  then fun st => Normal () (set_lastError src st)
  else fun st => invalid_parameter (set_lastError "" st).

(** [sprintf_s(g_lastError, sizeof(g_lastError), "<text>%s", arg)] *)
Definition sprintf_s_lastError (text arg : string) : M unit :=
  let formatted := text +:+ arg in
  if fits (Z.of_nat sizeof_g_lastError) formatted
  then fun st => Normal () (set_lastError formatted st)
  else fun st => invalid_parameter (set_lastError "" st).

(** [sprintf_s(buffer, size, "Size: %lld bytes", n)] on a buffer of the
    caller: the new contents of the buffer. *)
Definition sprintf_s_size (size : Z) (n : Z) : M string :=
  let formatted := "Size: " +:+ pretty n +:+ " bytes" in
  if fits size formatted
  then ret formatted
  else invalid_parameter >> ret "".

(** ** Helpers of the source *)

(** [std::ifstream file(filename)]: the bytes of the file when it opens.
    No file has the empty name. *)
Definition ifstream_open (filename : string)
    (fs : gmap string (list Byte.byte)) : option (list Byte.byte) :=
  match filename with
  | "" => None
  | _ => fs !! filename
  end.

Definition FileExists (filename : string) : M bool := fun st =>
  Normal (bool_decide (is_Some (ifstream_open filename (files st)))) st.

Definition ExecutePythonCLI (command : string) : M string := fun st =>
  let result := "" in
  let st := log_spawn command st in
  match popen env command (files st) with
  | PipeNull =>
      (strcpy_s_lastError "Failed to execute Python CLI" >> ret "") st
  | PipeStream out fs' =>
      Normal (read_pipe (String.length out) out result) (set_files fs' st)
  | PipeThrow e fs' => Throw e (set_files fs' st)
  end.

(** [GetModuleFileNameA(NULL, dllPath, nSize)]: the path, cut to what
    the buffer holds. *)
Definition GetModuleFileNameA (nSize : nat) : string :=
  substr0 (nSize - 1) (module_file_name env).

(** The two paths are never null here: the one caller has checked them. *)
Definition BuildCLICommand (inputFile outputFile : string)
    (inputFormat outputFormat : option string) : string :=
  let cmd := "" in
  let dllPath := GetModuleFileNameA MAX_PATH in
  let dllDir := dllPath in
  let lastSlash := find_last_of "\/" dllDir in
  let dllDir :=
    match lastSlash with
    | Some n => substr0 n dllDir
    | None => dllDir
    end in
  let cmd := cmd +:+ "cd /d " +:+ dquote +:+ dllDir +:+ dquote +:+ " && python cli.py" in
  let cmd := cmd +:+ " " +:+ dquote +:+ inputFile +:+ dquote in
  let cmd := cmd +:+ " -o " +:+ dquote +:+ outputFile +:+ dquote in
  let cmd :=
    match outputFormat with
    | Some fmt => if bool_decide (0 < strlen fmt)%nat then cmd +:+ " -t " +:+ fmt else cmd
    | None => cmd
    end in
  let cmd := cmd +:+ " --quiet 2>&1" in
  cmd.

(** ** Exported functions *)

Definition ConvertDocument (inputFile outputFile inputFormat outputFormat : option string)
    : M Z :=
  (* Clear previous error *)
  clear_lastError >>
  match inputFile, outputFile with
  | Some inputFile, Some outputFile =>
      let* exists_in := FileExists inputFile in
      if negb exists_in then
        sprintf_s_lastError "Input file not found: " inputFile >>
        ret UC_ERROR
      else
        try_catch
          (let command := BuildCLICommand inputFile outputFile inputFormat outputFormat in
           let* output := ExecutePythonCLI command in
           let* exists_out := FileExists outputFile in
           if exists_out then ret UC_SUCCESS
           else
             let* err := get_lastError in
             (if bool_decide (strlen err = 0%nat)
              then strcpy_s_lastError "Conversion failed - output file not created"
              else ret ()) >>
             ret UC_FAILURE)
          (fun e =>
             match e with
             | StdException what =>
                 sprintf_s_lastError "Exception: " what >> ret UC_ERROR
             | OtherException =>
                 strcpy_s_lastError "Unknown error occurred" >> ret UC_ERROR
             end)
  | _, _ =>
      strcpy_s_lastError "Invalid input parameters" >>
      ret UC_ERROR
  end.

Definition TestConnection : M Z :=
  (* Clear previous error *)
  clear_lastError >>
  try_catch
    (let command := "python --version 2>&1" in
     let* output := ExecutePythonCLI command in
     match string_find "Python" output with
     | Some _ =>
         let* exists_cli := FileExists "cli.py" in
         if exists_cli then ret UC_SUCCESS
         else strcpy_s_lastError "CLI script not found" >> ret UC_FAILURE
     | None =>
         strcpy_s_lastError "Python not available" >> ret UC_FAILURE
     end)
    (fun _ => strcpy_s_lastError "Connection test failed" >> ret UC_ERROR).

Definition GetVersion : M string := ret g_version.
Definition GetLastError : M string := get_lastError.
Definition GetSupportedInputFormats : M string := ret "pdf,docx,txt,html,rtf,md,markdown".
Definition GetSupportedOutputFormats : M string := ret "txt,md,html,json".

Definition ConvertPDFToText (inputFile outputFile : option string) : M Z :=
  ConvertDocument inputFile outputFile (Some "pdf") (Some "txt").
Definition ConvertPDFToMarkdown (inputFile outputFile : option string) : M Z :=
  ConvertDocument inputFile outputFile (Some "pdf") (Some "md").
Definition ConvertDOCXToText (inputFile outputFile : option string) : M Z :=
  ConvertDocument inputFile outputFile (Some "docx") (Some "txt").
Definition ConvertDOCXToMarkdown (inputFile outputFile : option string) : M Z :=
  ConvertDocument inputFile outputFile (Some "docx") (Some "md").
Definition ConvertMarkdownToHTML (inputFile outputFile : option string) : M Z :=
  ConvertDocument inputFile outputFile (Some "md") (Some "html").
Definition ConvertHTMLToMarkdown (inputFile outputFile : option string) : M Z :=
  ConvertDocument inputFile outputFile (Some "html") (Some "md").
Definition ConvertRTFToText (inputFile outputFile : option string) : M Z :=
  ConvertDocument inputFile outputFile (Some "rtf") (Some "txt").
Definition ConvertRTFToMarkdown (inputFile outputFile : option string) : M Z :=
  ConvertDocument inputFile outputFile (Some "rtf") (Some "md").

Definition ConvertBatch (inputDir outputDir inputFormat outputFormat : option string)
    : M Z :=
  strcpy_s_lastError "Batch conversion not yet implemented" >>
  ret UC_ERROR.

(** [GetFileInfo(filePath, infoBuffer, bufferSize)].  [infoBuffer] is
    [None] for a null pointer and otherwise what the buffer holds; the
    result pairs the status with what the buffer holds afterwards. *)
Definition GetFileInfo (filePath infoBuffer : option string) (bufferSize : Z)
    : M (Z * option string) :=
  match filePath, infoBuffer with
  | Some filePath, Some held =>
      if bool_decide (bufferSize <= 0) then
        strcpy_s_lastError "Invalid parameters for GetFileInfo" >>
        ret (UC_ERROR, infoBuffer)
      else
        let* exists_file := FileExists filePath in
        if negb exists_file then
          sprintf_s_lastError "File not found: " filePath >>
          ret (UC_ERROR, infoBuffer)
        else
          (* std::ifstream file(filePath, std::ios::binary | std::ios::ate) *)
          let* file := (fun st => Normal (ifstream_open filePath (files st)) st) in
          match file with
          | Some bytes =>
              let size := Z.of_nat (length bytes) in
              let* text := sprintf_s_size bufferSize (to_long_long size) in
              ret (UC_SUCCESS, Some text)
          | None =>
              strcpy_s_lastError "Could not open file for info" >>
              ret (UC_ERROR, infoBuffer)
          end
  | _, _ =>
      strcpy_s_lastError "Invalid parameters for GetFileInfo" >>
      ret (UC_ERROR, infoBuffer)
  end.

End Converter.

(** ** The command line as the interface describes it

    [<interpreter> <entry-script> <input> -o <output> [-t <format>] --quiet],
    run from the install directory, with the error stream folded into the
    output stream.  These definitions follow that description; the theorems
    compare them with [BuildCLICommand]. *)

Definition quoted (s : string) : string := dquote +:+ s +:+ dquote.

(** The directory part of the module path. *)
Definition install_dir (env : Env) : string :=
  let path := substr0 (MAX_PATH - 1) (module_file_name env) in
  match find_last_of "\/" path with
  | Some n => substr0 n path
  | None => path
  end.

(** The optional target-format flag: present only for a hint that is
    neither null nor empty. *)
Definition format_flag (outputFormat : option string) : list string :=
  match outputFormat with
  | Some (String c fmt) => ["-t"; String c fmt]
  | _ => []
  end.

Definition tool_arguments (inputFile outputFile : string)
    (outputFormat : option string) : list string :=
  ["python"; "cli.py"; quoted inputFile; "-o"; quoted outputFile]
    ++ format_flag outputFormat ++ ["--quiet"; "2>&1"].

(** Words separated by single blanks. *)
Fixpoint unwords (ws : list string) : string :=
  match ws with
  | [] => ""
  | [w] => w
  | w :: ws' => w +:+ " " +:+ unwords ws'
  end.

Definition command_line (dir inputFile outputFile : string)
    (outputFormat : option string) : string :=
  "cd /d " +:+ quoted dir +:+ " && "
    +:+ unwords (tool_arguments inputFile outputFile outputFormat).

(** The command of the connectivity probe. *)
Definition probe_command : string := "python --version 2>&1".

(** ** Sample worlds

    Small closed environments and states on which the theorems below are
    exercised. *)

Fixpoint repeat_char (c : ascii) (n : nat) : string :=
  match n with
  | O => ""
  | S n' => String c (repeat_char c n')
  end.

Definition host_path : string := "C:\Legacy\Host\host.exe".

Definition sample_pdf : list Byte.byte := [Byte.x25; Byte.x50; Byte.x44; Byte.x46].

Definition sample_files : gmap string (list Byte.byte) :=
  {[ "report.pdf" := sample_pdf ]}.

(** A tool that writes [target] and reports on the pipe. *)
Definition tool_writes (target report : string)
    : string -> gmap string (list Byte.byte) -> pipe_result :=
  fun _ fs => PipeStream report (<[target := [Byte.x68; Byte.x69]]> fs).

(** A tool that prints [report] and writes nothing. *)
Definition tool_prints (report : string)
    : string -> gmap string (list Byte.byte) -> pipe_result :=
  fun _ fs => PipeStream report fs.

(** A shell that cannot be started. *)
Definition no_shell : string -> gmap string (list Byte.byte) -> pipe_result :=
  fun _ _ => PipeNull.

(** A helper that runs out of memory while collecting the output. *)
Definition tool_throws (e : exn)
    : string -> gmap string (list Byte.byte) -> pipe_result :=
  fun _ fs => PipeThrow e fs.

(** The host as shipped: the CRT's own invalid-parameter handler. *)
Definition host (tool : string -> gmap string (list Byte.byte) -> pipe_result) : Env :=
  {| module_file_name := host_path; popen := tool; handler_returns := false |}.

(** A host that installed a handler which returns. *)
Definition lenient_host (tool : string -> gmap string (list Byte.byte) -> pipe_result) : Env :=
  {| module_file_name := host_path; popen := tool; handler_returns := true |}.

Definition fresh_state : State :=
  {| g_lastError := ""; files := sample_files; spawned := [] |}.

(** The state a failed earlier call leaves behind. *)
Definition stale_state : State :=
  {| g_lastError := "Batch conversion not yet implemented";
     files := sample_files; spawned := [] |}.

(** An install directory that holds the entry script. *)
Definition installed_state : State :=
  {| g_lastError := "";
     files := <["cli.py" := [Byte.x23]]> sample_files;
     spawned := [] |}.

(** A path of 496 characters, one more than "File not found: " leaves room
    for in [g_lastError]. *)
Definition long_path : string := repeat_char "a"%char 496.

(** * Properties *)

(** ** Strings *)

(** stdpp keeps [String.append] from unfolding under [simpl]; these two
    equations are its defining clauses. *)
Lemma str_app_nil_l (b : string) : "" +:+ b = b.
Proof. reflexivity. Qed.

Lemma str_app_cons (x : ascii) (a b : string) :
  String x a +:+ b = String x (a +:+ b).
Proof. reflexivity. Qed.

Lemma str_app_assoc (a b c : string) : (a +:+ b) +:+ c = a +:+ b +:+ c.
Proof.
  induction a as [|x a IH]; [reflexivity |].
  now rewrite !str_app_cons, IH.
Qed.

Lemma str_app_nil_r (a : string) : a +:+ "" = a.
Proof.
  induction a as [|x a IH]; [reflexivity |].
  now rewrite str_app_cons, IH.
Qed.

Lemma str_length_app (a b : string) :
  String.length (a +:+ b) = (String.length a + String.length b)%nat.
Proof.
  induction a as [|x a IH]; [reflexivity |].
  rewrite str_app_cons. simpl. now rewrite IH.
Qed.

Lemma prefix_spec (pat s : string) :
  String.prefix pat s = true <-> exists post, s = pat +:+ post.
Proof.
  revert s. induction pat as [|c pat IH]; intros s.
  - split; [intros _; now exists s | intros _; now destruct s].
  - destruct s as [|d s]; cbn [String.prefix].
    + split; [discriminate | intros [post H]; discriminate].
    + destruct (ascii_dec c d) as [->|Hne].
      * rewrite IH. split; intros [post H]; exists post.
        -- rewrite str_app_cons. congruence.
        -- rewrite str_app_cons in H. congruence.
      * split; [discriminate |].
        intros [post H]. rewrite str_app_cons in H. congruence.
Qed.

(** [string_find] answers exactly when the pattern occurs somewhere. *)
Lemma string_find_occurs (pat s : string) :
  is_Some (string_find pat s) <-> exists pre post, s = pre +:+ pat +:+ post.
Proof.
  induction s as [|c s IH].
  - cbn [string_find]. destruct (String.prefix pat "") eqn:Hp.
    + apply prefix_spec in Hp as [post Hp].
      split; [intros _; now exists "", post | intros _; eauto].
    + split; [intros [x Hx]; discriminate |].
      intros (pre & post & H). destruct pre; [|discriminate].
      assert (String.prefix pat "" = true) by (apply prefix_spec; eauto).
      congruence.
  - cbn [string_find]. destruct (String.prefix pat (String c s)) eqn:Hp.
    + apply prefix_spec in Hp as [post Hp].
      split; [intros _; now exists "", post | intros _; eauto].
    + rewrite fmap_is_Some, IH. split.
      * intros (pre & post & ->). now exists (String c pre), post.
      * intros (pre & post & H). destruct pre as [|d pre].
        -- assert (String.prefix pat (String c s) = true)
             by (apply prefix_spec; eauto).
           congruence.
        -- rewrite str_app_cons in H. injection H as _ ->. eauto.
Qed.

Lemma occurs_find (pat s : string) : occurs pat s <-> is_Some (string_find pat s).
Proof. symmetry. apply string_find_occurs. Qed.

(** A pattern that starts where [X +:+ String c Y] starts and does not
    hold [c] ends inside [X]. *)
Lemma prefix_before_char (pat post X Y : string) (c : ascii) :
  char_in c pat = false ->
  pat +:+ post = X +:+ String c Y ->
  exists post', X = pat +:+ post'.
Proof.
  revert X. induction pat as [|p pat IH]; intros X Hc H.
  - now exists X.
  - cbn [char_in] in Hc. apply orb_false_iff in Hc as [Hcp Hc].
    rewrite str_app_cons in H. destruct X as [|x X].
    + rewrite str_app_nil_l in H. injection H as -> _.
      rewrite Ascii.eqb_refl in Hcp. discriminate.
    + rewrite str_app_cons in H. injection H as -> H.
      destruct (IH X Hc H) as [post' ->]. now exists post'.
Qed.

(** An occurrence cannot straddle a character the pattern does not hold. *)
Lemma occurs_split_at (pat X Y : string) (c : ascii) :
  char_in c pat = false ->
  occurs pat (X +:+ String c Y) <-> occurs pat X \/ occurs pat Y.
Proof.
  intros Hc. split.
  - intros (pre & post & H). revert X H.
    induction pre as [|d pre IH]; intros X H.
    + rewrite str_app_nil_l in H. symmetry in H.
      destruct (prefix_before_char _ _ _ _ _ Hc H) as [post' ->].
      left. now exists "", post'.
    + rewrite str_app_cons in H. destruct X as [|x X].
      * rewrite str_app_nil_l in H. injection H as _ ->.
        right. now exists pre, post.
      * rewrite str_app_cons in H. injection H as -> H.
        destruct (IH X H) as [(pre' & post' & ->) | HY].
        -- left. now exists (String d pre'), post'.
        -- now right.
  - intros [(pre & post & ->) | (pre & post & ->)].
    + exists pre, (post +:+ String c Y). now rewrite !str_app_assoc.
    + exists (X +:+ String c pre), post.
      now rewrite !str_app_assoc, str_app_cons.
Qed.

(** ** The read loop collects the whole stream *)

Lemma c_str_no_nul (s : string) : no_nul s = true -> c_str s = s.
Proof.
  induction s as [|c s IH]; simpl; [reflexivity |].
  destruct (Ascii.eqb c "000"%char); simpl; [discriminate |].
  intros H. now rewrite IH.
Qed.

Lemma no_nul_append (a b : string) :
  no_nul (a +:+ b) = no_nul a && no_nul b.
Proof.
  induction a as [|c a IH]; simpl; [reflexivity |].
  now rewrite IH, andb_assoc.
Qed.

Lemma fgets_split_append (n : nat) (stream : string) :
  (fgets_split n stream).1 +:+ (fgets_split n stream).2 = stream.
Proof.
  revert stream. induction n as [|n IH]; intros [|c rest]; simpl; try reflexivity.
  destruct (Ascii.eqb c newline); simpl; [reflexivity |].
  specialize (IH rest). destruct (fgets_split n rest) as [line rest'].
  simpl in *. now rewrite str_app_cons, IH.
Qed.

(** A chunk of a non-empty stream is never empty, so every round of the
    loop shortens what is left. *)
Lemma fgets_split_progress (n : nat) (c : ascii) (rest : string) :
  (String.length (fgets_split (S n) (String c rest)).2 <= String.length rest)%nat.
Proof.
  revert c rest. induction n as [|n IH]; intros c rest.
  - cbn [fgets_split]. destruct (Ascii.eqb c newline); [simpl; lia |].
    destruct rest; simpl; lia.
  - cbn [fgets_split]. destruct (Ascii.eqb c newline); [simpl; lia |].
    destruct rest as [|d rest]; [simpl; lia |].
    specialize (IH d rest). cbn [fgets_split] in IH.
    destruct (Ascii.eqb d newline); [simpl; lia |].
    destruct (fgets_split n rest) as [line rest'].
    simpl in *. lia.
Qed.

(** More fuel than the stream has characters changes nothing: the loop
    has ended by then. *)
Lemma read_pipe_fuel (fuel1 fuel2 : nat) (stream result : string) :
  (String.length stream <= fuel1)%nat ->
  (String.length stream <= fuel2)%nat ->
  read_pipe fuel1 stream result = read_pipe fuel2 stream result.
Proof.
  revert fuel2 stream result.
  induction fuel1 as [|fuel1 IH]; intros fuel2 stream result H1 H2.
  - destruct stream; [now destruct fuel2 | simpl in H1; lia].
  - destruct stream as [|c rest]; [now destruct fuel2 |].
    destruct fuel2 as [|fuel2]; [simpl in H2; lia |].
    cbn [read_pipe fgets]. change (128 - 1)%nat with (S 126).
    pose proof (fgets_split_progress 126 c rest) as Hprog.
    destruct (fgets_split (S 126) (String c rest)) as [buffer rest'].
    cbn [snd] in Hprog. simpl in H1, H2. apply IH; lia.
Qed.

Lemma read_pipe_whole (fuel : nat) (stream result : string) :
  (String.length stream <= fuel)%nat ->
  no_nul stream = true ->
  read_pipe fuel stream result = result +:+ stream.
Proof.
  revert stream result. induction fuel as [|fuel IH]; intros stream result Hlen Hnul.
  - destruct stream; [simpl; now rewrite str_app_nil_r | simpl in Hlen; lia].
  - destruct stream as [|c rest]; [simpl; now rewrite str_app_nil_r |].
    cbn [read_pipe fgets]. change (128 - 1)%nat with (S 126).
    pose proof (fgets_split_progress 126 c rest) as Hprog.
    pose proof (fgets_split_append (S 126) (String c rest)) as Happ.
    destruct (fgets_split (S 126) (String c rest)) as [buffer rest'].
    cbn [fst snd] in *.
    rewrite <- Happ in Hnul. rewrite no_nul_append in Hnul.
    apply andb_true_iff in Hnul as [Hb Hr].
    rewrite IH; [| simpl in Hlen; lia | exact Hr].
    rewrite (c_str_no_nul _ Hb), str_app_assoc, Happ. reflexivity.
Qed.

(** ** The secure CRT routines *)

Lemma set_lastError_twice (a b : string) (st : State) :
  set_lastError a (set_lastError b st) = set_lastError a st.
Proof. reflexivity. Qed.

(** Side conditions on what fits into [g_lastError]. *)
Ltac buffer_bound := unfold strlen, sizeof_g_lastError in *; simpl; lia.

Section Properties.
Context (env : Env).

Lemma strcpy_s_lastError_fits (src : string) (st : State) :
  (strlen src < sizeof_g_lastError)%nat ->
  strcpy_s_lastError env src st = Normal () (set_lastError src st).
Proof.
  intros H. unfold strcpy_s_lastError, fits.
  rewrite bool_decide_eq_true_2 by lia. reflexivity.
Qed.

Lemma sprintf_s_lastError_fits (text arg : string) (st : State) :
  (strlen text + strlen arg < sizeof_g_lastError)%nat ->
  sprintf_s_lastError env text arg st = Normal () (set_lastError (text +:+ arg) st).
Proof.
  intros H. unfold sprintf_s_lastError, fits, strlen in *.
  rewrite bool_decide_eq_true_2; [reflexivity |].
  rewrite str_length_app. lia.
Qed.

(** When the text does not fit, the buffer is emptied and the handler
    decides whether the call comes back at all. *)
Lemma sprintf_s_lastError_overflow (text arg : string) (st : State) :
  (sizeof_g_lastError <= strlen text + strlen arg)%nat ->
  sprintf_s_lastError env text arg st
  = if handler_returns env then Normal () (set_lastError "" st) else Terminated.
Proof.
  intros H. unfold sprintf_s_lastError, fits, strlen in *.
  rewrite bool_decide_eq_false_2; [reflexivity |].
  rewrite str_length_app. lia.
Qed.

(** ** The helper that runs the tool *)

(** The helper never ends the process, and it always logs the command. *)
Lemma ExecutePythonCLI_cases (command : string) (st : State) :
  match popen env command (files st) with
  | PipeNull =>
      ExecutePythonCLI env command st
      = Normal "" (set_lastError "Failed to execute Python CLI" (log_spawn command st))
  | PipeStream out fs' =>
      ExecutePythonCLI env command st
      = Normal (read_pipe (String.length out) out "") (set_files fs' (log_spawn command st))
  | PipeThrow e fs' =>
      ExecutePythonCLI env command st = Throw e (set_files fs' (log_spawn command st))
  end.
Proof.
  unfold ExecutePythonCLI. cbn [files log_spawn].
  destruct (popen env command (files st)); reflexivity.
Qed.

Lemma ExecutePythonCLI_spawns (command output : string) (st st1 : State) :
  ExecutePythonCLI env command st = Normal output st1 ->
  spawned st1 = command :: spawned st.
Proof.
  pose proof (ExecutePythonCLI_cases command st) as H.
  destruct (popen env command (files st)); rewrite H; intros [= <- <-]; reflexivity.
Qed.

(** What the helper returns is everything the stream delivered, as long
    as that was text. *)
Lemma ExecutePythonCLI_captures (command out : string)
    (fs' : gmap string (list Byte.byte)) (st : State) :
  popen env command (files st) = PipeStream out fs' ->
  no_nul out = true ->
  ExecutePythonCLI env command st = Normal out (set_files fs' (log_spawn command st)).
Proof.
  intros Hp Hnul. pose proof (ExecutePythonCLI_cases command st) as H.
  rewrite Hp in H. rewrite H, read_pipe_whole by (lia || assumption).
  reflexivity.
Qed.

(** ** ConvertBatch *)

(** C9: for every combination of arguments ConvertBatch returns ERROR
    and records the fixed message; it starts no subprocess and leaves the
    files alone. *)
Theorem ConvertBatch_not_implemented
    (inputDir outputDir inputFormat outputFormat : option string) (st : State) :
  exists st',
    ConvertBatch env inputDir outputDir inputFormat outputFormat st = Normal UC_ERROR st'
    /\ g_lastError st' = "Batch conversion not yet implemented"
    /\ spawned st' = spawned st
    /\ files st' = files st.
Proof.
  exists (set_lastError "Batch conversion not yet implemented" st).
  repeat split.
Qed.

(** ** The input-format hint *)

(** C4: two calls that differ only in the input-format hint build the
    same command, and ConvertDocument behaves the same on them. *)
Theorem input_format_hint_unused
    (hint1 hint2 : option string) (outputFormat : option string) :
  (forall inputFile outputFile : string,
      BuildCLICommand env inputFile outputFile hint1 outputFormat
      = BuildCLICommand env inputFile outputFile hint2 outputFormat)
  /\ (forall (inputFile outputFile : option string) (st : State),
      ConvertDocument env inputFile outputFile hint1 outputFormat st
      = ConvertDocument env inputFile outputFile hint2 outputFormat st).
Proof.
  split; [reflexivity |].
  intros [inputFile|] [outputFile|] st; reflexivity.
Qed.

(** ** The eight wrappers *)

(** C5: each format-pair wrapper is ConvertDocument with its two hints
    fixed: same status, same resulting state, on every state. *)
Theorem wrappers_forward (inputFile outputFile : option string) (st : State) :
  ConvertPDFToText env inputFile outputFile st
    = ConvertDocument env inputFile outputFile (Some "pdf") (Some "txt") st
  /\ ConvertPDFToMarkdown env inputFile outputFile st
    = ConvertDocument env inputFile outputFile (Some "pdf") (Some "md") st
  /\ ConvertDOCXToText env inputFile outputFile st
    = ConvertDocument env inputFile outputFile (Some "docx") (Some "txt") st
  /\ ConvertDOCXToMarkdown env inputFile outputFile st
    = ConvertDocument env inputFile outputFile (Some "docx") (Some "md") st
  /\ ConvertMarkdownToHTML env inputFile outputFile st
    = ConvertDocument env inputFile outputFile (Some "md") (Some "html") st
  /\ ConvertHTMLToMarkdown env inputFile outputFile st
    = ConvertDocument env inputFile outputFile (Some "html") (Some "md") st
  /\ ConvertRTFToText env inputFile outputFile st
    = ConvertDocument env inputFile outputFile (Some "rtf") (Some "txt") st
  /\ ConvertRTFToMarkdown env inputFile outputFile st
    = ConvertDocument env inputFile outputFile (Some "rtf") (Some "md") st.
Proof. repeat split. Qed.

(** ** ConvertDocument: argument checks *)

Lemma FileExists_true (filename : string) (st : State) :
  is_Some (ifstream_open filename (files st)) ->
  FileExists filename st = Normal true st.
Proof.
  intros H. unfold FileExists. now rewrite bool_decide_eq_true_2.
Qed.

Lemma FileExists_false (filename : string) (st : State) :
  ifstream_open filename (files st) = None ->
  FileExists filename st = Normal false st.
Proof.
  intros H. unfold FileExists. rewrite H.
  rewrite bool_decide_eq_false_2; [reflexivity |].
  intros [x Hx]. discriminate.
Qed.

(** A null path is turned away at the first check. *)
Lemma ConvertDocument_null_path
    (inputFile outputFile inputFormat outputFormat : option string) (st : State) :
  inputFile = None \/ outputFile = None ->
  ConvertDocument env inputFile outputFile inputFormat outputFormat st
  = Normal UC_ERROR (set_lastError "Invalid input parameters" st).
Proof.
  intros [-> | ->]; [| destruct inputFile]; reflexivity.
Qed.

(** A missing input file is reported before anything else happens, as
    long as its path leaves room for the message: "Input file not found: "
    takes 22 of the 511 characters. *)
Lemma ConvertDocument_reports_missing_input
    (inputFile outputFile : string) (inputFormat outputFormat : option string)
    (st : State) :
  ifstream_open inputFile (files st) = None ->
  (strlen inputFile <= 489)%nat ->
  ConvertDocument env (Some inputFile) (Some outputFile) inputFormat outputFormat st
  = Normal UC_ERROR (set_lastError ("Input file not found: " +:+ inputFile) st).
Proof.
  intros Hopen Hlen.
  unfold ConvertDocument, bind, clear_lastError.
  rewrite FileExists_false by exact Hopen. cbn [negb].
  rewrite sprintf_s_lastError_fits
    by buffer_bound.
  reflexivity.
Qed.

(** A longer path does not fit, and the handler decides what is left of
    the call. *)
Lemma ConvertDocument_input_path_too_long
    (inputFile outputFile : string) (inputFormat outputFormat : option string)
    (st : State) :
  ifstream_open inputFile (files st) = None ->
  (490 <= strlen inputFile)%nat ->
  ConvertDocument env (Some inputFile) (Some outputFile) inputFormat outputFormat st
  = if handler_returns env
    then Normal UC_ERROR (set_lastError "" st)
    else Terminated.
Proof.
  intros Hopen Hlen.
  unfold ConvertDocument, bind, clear_lastError.
  rewrite FileExists_false by exact Hopen. cbn [negb].
  rewrite sprintf_s_lastError_overflow
    by buffer_bound.
  destruct (handler_returns env); reflexivity.
Qed.

(** C10, amended: when both paths are non-null, the input file does not
    open and its path is at most 489 characters long, ConvertDocument
    returns ERROR, and the state it leaves differs from the one it found
    only in the last-error text, which is "Input file not found: "
    followed by the path.  No command was handed to [_popen]. *)
Theorem ConvertDocument_input_not_found
    (inputFile outputFile : string) (inputFormat outputFormat : option string)
    (st : State) :
  ifstream_open inputFile (files st) = None ->
  (strlen inputFile <= 489)%nat ->
  exists st',
    ConvertDocument env (Some inputFile) (Some outputFile) inputFormat outputFormat st
    = Normal UC_ERROR st'
    /\ g_lastError st' = "Input file not found: " +:+ inputFile
    /\ spawned st' = spawned st
    /\ files st' = files st.
Proof.
  intros Hopen Hlen.
  exists (set_lastError ("Input file not found: " +:+ inputFile) st).
  split; [now apply ConvertDocument_reports_missing_input |].
  repeat split.
Qed.

(** C1, amended: when the input path or the output path is null, or the
    input path is the empty string, ConvertDocument returns ERROR with an
    explanation in the last-error text, and no command is handed to
    [_popen]: the log of commands and the files are as before. *)
Theorem ConvertDocument_missing_path
    (inputFile outputFile inputFormat outputFormat : option string) (st : State) :
  inputFile = None \/ outputFile = None \/ inputFile = Some "" ->
  exists st',
    ConvertDocument env inputFile outputFile inputFormat outputFormat st
    = Normal UC_ERROR st'
    /\ g_lastError st' <> ""
    /\ spawned st' = spawned st
    /\ files st' = files st.
Proof.
  intros [Hin | [Hout | Hempty]].
  - eexists. rewrite ConvertDocument_null_path by auto.
    repeat split. discriminate.
  - eexists. rewrite ConvertDocument_null_path by auto.
    repeat split. discriminate.
  - subst inputFile. destruct outputFile as [outputFile|].
    + eexists. split.
      * apply ConvertDocument_reports_missing_input; [reflexivity | cbn; lia].
      * repeat split. discriminate.
    + eexists. rewrite ConvertDocument_null_path by auto.
      repeat split. discriminate.
Qed.

(** ** ConvertDocument: the outcome follows the output file *)

Lemma set_lastError_same (st : State) : set_lastError (g_lastError st) st = st.
Proof. now destruct st. Qed.

(** What ConvertDocument does once the helper has come back. *)
Lemma ConvertDocument_after_helper
    (inputFile outputFile : string) (inputFormat outputFormat : option string)
    (st st1 : State) (output : string) :
  is_Some (ifstream_open inputFile (files st)) ->
  ExecutePythonCLI env
    (BuildCLICommand env inputFile outputFile inputFormat outputFormat)
    (set_lastError "" st) = Normal output st1 ->
  ConvertDocument env (Some inputFile) (Some outputFile) inputFormat outputFormat st
  = if bool_decide (is_Some (ifstream_open outputFile (files st1)))
    then Normal UC_SUCCESS st1
    else Normal UC_FAILURE
           (set_lastError
              (if bool_decide (strlen (g_lastError st1) = 0%nat)
               then "Conversion failed - output file not created"
               else g_lastError st1) st1).
Proof.
  intros Hin Hrun.
  unfold ConvertDocument, clear_lastError. unfold bind at 1 2.
  rewrite FileExists_true by exact Hin. cbn [negb].
  unfold try_catch, bind at 1. rewrite Hrun. cbn beta iota.
  unfold bind at 1, FileExists.
  destruct (bool_decide (is_Some (ifstream_open outputFile (files st1))));
    [reflexivity |].
  unfold bind, get_lastError.
  destruct (bool_decide (strlen (g_lastError st1) = 0%nat)); [reflexivity |].
  cbn. now rewrite set_lastError_same.
Qed.

(** C3, amended: with non-null paths and an input file that opens, when
    the helper returns without an exception (whatever text it captured),
    ConvertDocument
    returns SUCCESS when the output file opens, and otherwise FAILURE with
    a non-empty last-error text: the generic message unless the helper
    had already recorded one. *)
Theorem ConvertDocument_follows_output
    (inputFile outputFile : string) (inputFormat outputFormat : option string)
    (st st1 : State) (output : string) :
  is_Some (ifstream_open inputFile (files st)) ->
  ExecutePythonCLI env
    (BuildCLICommand env inputFile outputFile inputFormat outputFormat)
    (set_lastError "" st) = Normal output st1 ->
  (is_Some (ifstream_open outputFile (files st1)) ->
     ConvertDocument env (Some inputFile) (Some outputFile) inputFormat outputFormat st
     = Normal UC_SUCCESS st1)
  /\ (ifstream_open outputFile (files st1) = None ->
        exists msg,
          ConvertDocument env (Some inputFile) (Some outputFile) inputFormat outputFormat st
          = Normal UC_FAILURE (set_lastError msg st1)
          /\ msg <> ""
          /\ (g_lastError st1 = "" ->
                msg = "Conversion failed - output file not created")
          /\ (g_lastError st1 <> "" -> msg = g_lastError st1)).
Proof.
  intros Hin Hrun.
  rewrite (ConvertDocument_after_helper _ _ _ _ _ _ _ Hin Hrun). split.
  - intros Hout. now rewrite bool_decide_eq_true_2.
  - intros Hout. rewrite bool_decide_eq_false_2
      by (rewrite Hout; intros [x Hx]; discriminate).
    eexists. split; [reflexivity |].
    destruct (g_lastError st1) as [|c err]; cbn; repeat split;
      try discriminate; congruence.
Qed.

(** X11: the captured text plays no part: two tools that leave the same
    files behind get the same answer, whatever each of them printed. *)
Lemma ConvertDocument_ignores_output_text
    (env' : Env) (inputFile outputFile : string)
    (inputFormat outputFormat : option string) (st : State)
    (out out' : string) (fs' : gmap string (list Byte.byte)) :
  module_file_name env' = module_file_name env ->
  is_Some (ifstream_open inputFile (files st)) ->
  popen env (BuildCLICommand env inputFile outputFile inputFormat outputFormat)
    (files st) = PipeStream out fs' ->
  popen env' (BuildCLICommand env inputFile outputFile inputFormat outputFormat)
    (files st) = PipeStream out' fs' ->
  ConvertDocument env' (Some inputFile) (Some outputFile) inputFormat outputFormat st
  = ConvertDocument env (Some inputFile) (Some outputFile) inputFormat outputFormat st.
Proof.
  intros Hmod Hin Hp Hp'.
  set (command := BuildCLICommand env inputFile outputFile inputFormat outputFormat) in *.
  assert (Hcmd : BuildCLICommand env' inputFile outputFile inputFormat outputFormat
                 = command).
  { unfold command, BuildCLICommand, GetModuleFileNameA. now rewrite Hmod. }
  pose proof (ExecutePythonCLI_cases command (set_lastError "" st)) as Hrun.
  cbn [files set_lastError] in Hrun. rewrite Hp in Hrun.
  assert (Hrun' : ExecutePythonCLI env' command (set_lastError "" st)
                  = Normal (read_pipe (String.length out') out' "")
                      (set_files fs' (log_spawn command (set_lastError "" st)))).
  { unfold ExecutePythonCLI. cbn [files log_spawn set_lastError].
    now rewrite Hp'. }
  rewrite (ConvertDocument_after_helper inputFile outputFile inputFormat outputFormat
             st _ _ Hin Hrun).
  rewrite <- Hcmd in Hrun'. clear Hrun Hp Hp'.
  generalize dependent (read_pipe (String.length out') out' "").
  intros output' Hrun'.
  unfold ConvertDocument, clear_lastError. unfold bind at 1 2.
  rewrite FileExists_true by exact Hin. cbn [negb].
  unfold try_catch, bind at 1. rewrite Hrun'. cbn beta iota.
  unfold bind at 1, FileExists. rewrite Hcmd.
  destruct (bool_decide (is_Some (ifstream_open outputFile _))); reflexivity.
Qed.

(** When ConvertDocument returns SUCCESS, the last-error text is empty,
    or it is the helper's own report that the shell could not be started
    (the output file was there already).  Nothing older can be in it. *)
Lemma ConvertDocument_success_lastError
    (inputFile outputFile inputFormat outputFormat : option string) (st st' : State) :
  ConvertDocument env inputFile outputFile inputFormat outputFormat st
  = Normal UC_SUCCESS st' ->
  g_lastError st' = "" \/ g_lastError st' = "Failed to execute Python CLI".
Proof.
  destruct inputFile as [inputFile|]; [destruct outputFile as [outputFile|] |];
    [| rewrite ConvertDocument_null_path by auto; discriminate ..].
  destruct (ifstream_open inputFile (files st)) as [bytes|] eqn:Hopen.
  - assert (Hin : is_Some (ifstream_open inputFile (files st)))
      by (rewrite Hopen; eauto).
    set (command := BuildCLICommand env inputFile outputFile inputFormat outputFormat).
    pose proof (ExecutePythonCLI_cases command (set_lastError "" st)) as Hrun.
    destruct (popen env command (files (set_lastError "" st))) as [|out fs'|e fs'].
    + rewrite (ConvertDocument_after_helper _ _ _ _ _ _ _ Hin Hrun).
      destruct (bool_decide _); intros [= <-]; auto.
    + rewrite (ConvertDocument_after_helper _ _ _ _ _ _ _ Hin Hrun).
      destruct (bool_decide _); intros [= <-]; auto.
    + unfold ConvertDocument, clear_lastError. unfold bind at 1 2.
      rewrite FileExists_true by exact Hin. cbn [negb].
      unfold try_catch, bind at 1. fold command. rewrite Hrun.
      destruct e as [what|]; unfold bind.
      * destruct (sprintf_s_lastError env "Exception: " what _); discriminate.
      * destruct (strcpy_s_lastError env "Unknown error occurred" _); discriminate.
  - unfold ConvertDocument, clear_lastError, bind.
    rewrite FileExists_false by exact Hopen. cbn [negb].
    destruct (sprintf_s_lastError env "Input file not found: " inputFile _);
      discriminate.
Qed.

(** No exception that the helper raises leaves ConvertDocument: the
    caller gets a status or the process has been ended by the CRT. *)
Lemma strcpy_s_then_ret_contained {A} (src : string) (a : A) (st : State) :
  contained ((strcpy_s_lastError env src >> ret a) st).
Proof.
  unfold bind, strcpy_s_lastError, invalid_parameter.
  destruct (fits _ src); [exact I |].
  destruct (handler_returns env); exact I.
Qed.

Lemma sprintf_s_then_ret_contained {A} (text arg : string) (a : A) (st : State) :
  contained ((sprintf_s_lastError env text arg >> ret a) st).
Proof.
  unfold bind, sprintf_s_lastError, invalid_parameter.
  destruct (fits _ (text +:+ arg)); [exact I |].
  destruct (handler_returns env); exact I.
Qed.

Lemma try_catch_contained {A} (body : M A) (handler : exn -> M A) (st : State) :
  (forall e st', contained (handler e st')) ->
  contained (try_catch body handler st).
Proof.
  intros H. unfold try_catch. destruct (body st); [exact I | apply H | exact I].
Qed.

Lemma ConvertDocument_contained
    (inputFile outputFile inputFormat outputFormat : option string) (st : State) :
  contained (ConvertDocument env inputFile outputFile inputFormat outputFormat st).
Proof.
  destruct inputFile as [inputFile|]; [destruct outputFile as [outputFile|] |].
  - unfold ConvertDocument, clear_lastError. unfold bind at 1 2, FileExists.
    destruct (bool_decide (is_Some (ifstream_open inputFile _))); cbn [negb].
    + apply try_catch_contained. intros [what|] st'.
      * apply sprintf_s_then_ret_contained.
      * apply strcpy_s_then_ret_contained.
    + apply sprintf_s_then_ret_contained.
  - rewrite ConvertDocument_null_path by auto. exact I.
  - rewrite ConvertDocument_null_path by auto. exact I.
Qed.

(** ConvertDocument starts from an empty last-error text: what an
    earlier call left there has no influence on what it does. *)
Lemma ConvertDocument_forgets_lastError
    (inputFile outputFile inputFormat outputFormat : option string)
    (st : State) (old : string) :
  ConvertDocument env inputFile outputFile inputFormat outputFormat (set_lastError old st)
  = ConvertDocument env inputFile outputFile inputFormat outputFormat st.
Proof. reflexivity. Qed.

(** ** TestConnection *)

Lemma TestConnection_forgets_lastError (st : State) (old : string) :
  TestConnection env (set_lastError old st) = TestConnection env st.
Proof. reflexivity. Qed.

(** What TestConnection does once the probe has come back or thrown. *)
Lemma TestConnection_after_probe (st : State) :
  TestConnection env st
  = match ExecutePythonCLI env probe_command (set_lastError "" st) with
    | Normal output st1 =>
        match string_find "Python" output with
        | Some _ =>
            if bool_decide (is_Some (ifstream_open "cli.py" (files st1)))
            then Normal UC_SUCCESS st1
            else Normal UC_FAILURE (set_lastError "CLI script not found" st1)
        | None => Normal UC_FAILURE (set_lastError "Python not available" st1)
        end
    | Throw e st1 => Normal UC_ERROR (set_lastError "Connection test failed" st1)
    | Terminated => Terminated
    end.
Proof.
  unfold TestConnection, clear_lastError, probe_command.
  unfold bind at 1. cbn beta iota. unfold try_catch, bind at 1.
  destruct (ExecutePythonCLI env "python --version 2>&1" (set_lastError "" st))
    as [output st1 | e st1 |]; [| reflexivity | reflexivity].
  destruct (string_find "Python" output); [| reflexivity].
  unfold bind, FileExists.
  destruct (bool_decide (is_Some (ifstream_open "cli.py" (files st1)))); reflexivity.
Qed.

(** C8: once the probe has come back with its captured output,
    TestConnection returns SUCCESS exactly when that output contains
    "Python" and cli.py opens; when either check fails it returns FAILURE
    and records which one; an exception from the probe gives ERROR.  In
    every case TestConnection itself returns a status. *)
Theorem TestConnection_status (st : State) :
  (forall output st1,
      ExecutePythonCLI env probe_command (set_lastError "" st) = Normal output st1 ->
      let contains_token := exists pre post, output = pre +:+ "Python" +:+ post in
      let script_exists := is_Some (ifstream_open "cli.py" (files st1)) in
      (TestConnection env st = Normal UC_SUCCESS st1
         <-> contains_token /\ script_exists)
      /\ (~ contains_token ->
            TestConnection env st
            = Normal UC_FAILURE (set_lastError "Python not available" st1))
      /\ (contains_token -> ~ script_exists ->
            TestConnection env st
            = Normal UC_FAILURE (set_lastError "CLI script not found" st1)))
  /\ (forall e st1,
      ExecutePythonCLI env probe_command (set_lastError "" st) = Throw e st1 ->
      TestConnection env st
      = Normal UC_ERROR (set_lastError "Connection test failed" st1))
  /\ (exists status st',
      TestConnection env st = Normal status st'
      /\ (status = UC_SUCCESS \/ status = UC_FAILURE \/ status = UC_ERROR)).
Proof.
  rewrite TestConnection_after_probe. split; [| split].
  - intros output st1 -> contains_token script_exists.
    subst contains_token script_exists.
    rewrite <- string_find_occurs.
    destruct (string_find "Python" output) as [i|] eqn:Hfind.
    + assert (Hi : is_Some (Some i)) by eauto.
      destruct (decide (is_Some (ifstream_open "cli.py" (files st1)))) as [Hs|Hs].
      * rewrite bool_decide_eq_true_2 by exact Hs.
        split; [| split].
        -- split; [intros _; split; assumption | reflexivity].
        -- intros H. contradiction.
        -- intros _ H. contradiction.
      * rewrite bool_decide_eq_false_2 by exact Hs.
        split; [| split].
        -- split; [discriminate | intros [_ H]; contradiction].
        -- intros H. contradiction.
        -- reflexivity.
    + assert (Hi : ~ @is_Some nat None) by (intros [x Hx]; discriminate).
      split; [| split].
      * split; [discriminate | intros [H _]; contradiction].
      * reflexivity.
      * intros H. contradiction.
  - intros e st1 ->. reflexivity.
  - pose proof (ExecutePythonCLI_cases probe_command (set_lastError "" st)) as H.
    destruct (popen env probe_command (files (set_lastError "" st)));
      rewrite H.
    + eexists _, _. split; [reflexivity | cbn; auto].
    + destruct (string_find "Python" _);
        [destruct (bool_decide _) |]; eexists _, _; (split; [reflexivity | auto]).
    + eexists _, _. split; [reflexivity | auto].
Qed.

(** ** GetFileInfo *)

Lemma to_long_long_small (z : Z) : 0 <= z < 2 ^ 63 -> to_long_long z = z.
Proof.
  intros H. unfold to_long_long. rewrite Z.mod_small; lia.
Qed.

(** For a file of N bytes and a capacity that holds the text and its
    NUL, the buffer receives "Size: N bytes" and nothing else changes. *)
Lemma GetFileInfo_reports_size
    (filePath held : string) (bytes : list Byte.byte) (bufferSize : Z) (st : State) :
  ifstream_open filePath (files st) = Some bytes ->
  Z.of_nat (length bytes) < 2 ^ 63 ->
  Z.of_nat (strlen ("Size: " +:+ pretty (Z.of_nat (length bytes)) +:+ " bytes"))
    < bufferSize ->
  GetFileInfo env (Some filePath) (Some held) bufferSize st
  = Normal (UC_SUCCESS,
            Some ("Size: " +:+ pretty (Z.of_nat (length bytes)) +:+ " bytes")) st.
Proof.
  intros Hopen Hsize Hcap. unfold GetFileInfo.
  rewrite bool_decide_eq_false_2 by lia.
  unfold bind at 1. rewrite FileExists_true by (rewrite Hopen; eauto).
  cbn [negb]. unfold bind at 1. rewrite Hopen.
  rewrite to_long_long_small by lia.
  unfold bind, sprintf_s_size, fits.
  rewrite bool_decide_eq_true_2 by exact Hcap. reflexivity.
Qed.

Lemma GetFileInfo_invalid_parameters
    (filePath infoBuffer : option string) (bufferSize : Z) (st : State) :
  filePath = None \/ infoBuffer = None \/ bufferSize <= 0 ->
  GetFileInfo env filePath infoBuffer bufferSize st
  = Normal (UC_ERROR, infoBuffer)
      (set_lastError "Invalid parameters for GetFileInfo" st).
Proof.
  intros H. unfold GetFileInfo.
  destruct filePath as [filePath|]; [| reflexivity].
  destruct infoBuffer as [held|]; [| reflexivity].
  destruct H as [H | [H | H]]; try discriminate.
  rewrite bool_decide_eq_true_2 by exact H. reflexivity.
Qed.

(** A missing file is reported as long as its path leaves room for the
    message: "File not found: " takes 16 of the 511 characters. *)
Lemma GetFileInfo_file_not_found
    (filePath held : string) (bufferSize : Z) (st : State) :
  0 < bufferSize ->
  ifstream_open filePath (files st) = None ->
  (strlen filePath <= 495)%nat ->
  GetFileInfo env (Some filePath) (Some held) bufferSize st
  = Normal (UC_ERROR, Some held) (set_lastError ("File not found: " +:+ filePath) st).
Proof.
  intros Hcap Hopen Hlen. unfold GetFileInfo.
  rewrite bool_decide_eq_false_2 by lia.
  unfold bind at 1. rewrite FileExists_false by exact Hopen. cbn [negb].
  unfold bind. rewrite sprintf_s_lastError_fits
    by buffer_bound.
  reflexivity.
Qed.

(** A longer path does not fit: whether GetFileInfo comes back is up to
    the invalid-parameter handler. *)
Lemma GetFileInfo_path_too_long
    (filePath held : string) (bufferSize : Z) (st : State) :
  0 < bufferSize ->
  ifstream_open filePath (files st) = None ->
  (496 <= strlen filePath)%nat ->
  GetFileInfo env (Some filePath) (Some held) bufferSize st
  = if handler_returns env
    then Normal (UC_ERROR, Some held) (set_lastError "" st)
    else Terminated.
Proof.
  intros Hcap Hopen Hlen. unfold GetFileInfo.
  rewrite bool_decide_eq_false_2 by lia.
  unfold bind at 1. rewrite FileExists_false by exact Hopen. cbn [negb].
  unfold bind. rewrite sprintf_s_lastError_overflow
    by buffer_bound.
  destruct (handler_returns env); reflexivity.
Qed.

(** The accessors only read. *)
Lemma accessors_read_only (st : State) :
  GetVersion st = Normal "3.1.0" st
  /\ GetLastError st = Normal (g_lastError st) st
  /\ GetSupportedInputFormats st = Normal "pdf,docx,txt,html,rtf,md,markdown" st
  /\ GetSupportedOutputFormats st = Normal "txt,md,html,json" st.
Proof. repeat split. Qed.

(** GetFileInfo writes the last-error text only when it fails: a call
    that returns SUCCESS leaves the state as it found it. *)
Lemma GetFileInfo_success_state
    (filePath infoBuffer : option string) (bufferSize : Z)
    (st st' : State) (held : option string) :
  GetFileInfo env filePath infoBuffer bufferSize st = Normal (UC_SUCCESS, held) st' ->
  st' = st.
Proof.
  unfold GetFileInfo.
  destruct filePath as [filePath|]; [destruct infoBuffer as [buffer|] |];
    [| intros [=] ..].
  destruct (bool_decide (bufferSize <= 0)); [intros [=] |].
  unfold bind at 1, FileExists.
  destruct (ifstream_open filePath (files st)) as [bytes|] eqn:Hopen.
  - rewrite bool_decide_eq_true_2 by eauto. cbn [negb].
    unfold bind at 1. rewrite Hopen.
    unfold bind, sprintf_s_size, invalid_parameter.
    destruct (fits bufferSize _); [intros [= _ <-]; reflexivity |].
    destruct (handler_returns env); [intros [= _ <-]; reflexivity | discriminate].
  - rewrite bool_decide_eq_false_2 by (intros [x Hx]; discriminate).
    cbn [negb]. unfold bind.
    destruct (sprintf_s_lastError env "File not found: " filePath st);
      [intros [=] | discriminate ..].
Qed.

(** C2: GetFileInfo does not clear the last-error text.  On the state
    that ConvertBatch leaves behind it reports the size of report.pdf,
    returns SUCCESS, and the message of the earlier call is still there
    to be read. *)
Theorem GetFileInfo_keeps_stale_error :
  ConvertBatch env None None None None fresh_state = Normal UC_ERROR stale_state
  /\ GetFileInfo env (Some "report.pdf") (Some "") 64 stale_state
     = Normal (UC_SUCCESS, Some "Size: 4 bytes") stale_state
  /\ GetLastError stale_state
     = Normal "Batch conversion not yet implemented" stale_state.
Proof.
  split; [reflexivity |]. split; [| reflexivity].
  apply (GetFileInfo_reports_size "report.pdf" "" sample_pdf 64 stale_state).
  - reflexivity.
  - reflexivity.
  - reflexivity.
Qed.

(** ** The command line *)

Lemma BuildCLICommand_command_line
    (inputFile outputFile : string) (inputFormat outputFormat : option string) :
  BuildCLICommand env inputFile outputFile inputFormat outputFormat
  = command_line (install_dir env) inputFile outputFile outputFormat.
Proof.
  unfold BuildCLICommand, command_line, install_dir, tool_arguments,
    GetModuleFileNameA, quoted.
  set (path := substr0 (MAX_PATH - 1) (module_file_name env)).
  set (dir := match find_last_of "\/" path with
              | Some n => substr0 n path
              | None => path
              end).
  destruct outputFormat as [[|c fmt]|]; cbn [format_flag app unwords];
    rewrite ?bool_decide_eq_true_2 by (cbn; lia);
    rewrite ?bool_decide_eq_false_2 by (cbn; lia);
    rewrite !str_app_assoc; reflexivity.
Qed.

(** Where " -t " can sit in a command line: the six quotes cut it into
    pieces, and the fixed pieces do not hold it. *)
Lemma occurs_flag_text_line (dir inputFile outputFile rest : string) :
  occurs " -t "
    ("cd /d " +:+ String "034" (dir +:+ String "034" (" && python cli.py "
       +:+ String "034" (inputFile +:+ String "034" (" -o "
       +:+ String "034" (outputFile +:+ String "034" rest))))))
  <-> occurs " -t " dir \/ occurs " -t " inputFile \/ occurs " -t " outputFile
      \/ occurs " -t " rest.
Proof.
  assert (Hfixed : forall s, string_find " -t " s = None -> ~ occurs " -t " s).
  { intros s Hs Ho. apply occurs_find in Ho as [x Hx]. congruence. }
  pose proof (Hfixed "cd /d " eq_refl) as H1.
  pose proof (Hfixed " && python cli.py " eq_refl) as H2.
  pose proof (Hfixed " -o " eq_refl) as H3.
  rewrite !occurs_split_at by reflexivity. tauto.
Qed.

Lemma occurs_flag_text_command (inputFile outputFile : string)
    (inputFormat outputFormat : option string) :
  occurs " -t " (BuildCLICommand env inputFile outputFile inputFormat outputFormat)
  <-> (exists fmt, outputFormat = Some fmt /\ fmt <> "")
      \/ occurs " -t " (install_dir env)
      \/ occurs " -t " inputFile
      \/ occurs " -t " outputFile.
Proof.
  rewrite BuildCLICommand_command_line.
  set (rest := match outputFormat with
               | Some (String c fmt) => " -t " +:+ String c fmt +:+ " --quiet 2>&1"
               | _ => " --quiet 2>&1"
               end).
  assert (Hline : command_line (install_dir env) inputFile outputFile outputFormat
                  = "cd /d " +:+ String "034" (install_dir env +:+ String "034"
                      (" && python cli.py " +:+ String "034" (inputFile +:+ String "034"
                      (" -o " +:+ String "034" (outputFile +:+ String "034" rest)))))).
  { unfold command_line, tool_arguments, quoted, dquote. subst rest.
    destruct outputFormat as [[|c fmt]|]; cbn [format_flag app unwords];
      rewrite !str_app_assoc; reflexivity. }
  rewrite Hline, occurs_flag_text_line.
  assert (Hrest : occurs " -t " rest <-> exists fmt, outputFormat = Some fmt /\ fmt <> "").
  { subst rest. destruct outputFormat as [[|c fmt]|].
    - rewrite occurs_find. split; [intros [x Hx]; discriminate |].
      intros (fmt & [= <-] & H). contradiction.
    - split; [intros _; exists (String c fmt); split; [reflexivity | discriminate] |].
      intros _. exists "", (String c fmt +:+ " --quiet 2>&1"). reflexivity.
    - rewrite occurs_find. split; [intros [x Hx]; discriminate |].
      intros (fmt & [=] & _). }
  rewrite Hrest. tauto.
Qed.

(** C7, amended: after the quoted output path the code appends " -t "
    and the hint exactly when the output-format hint is neither null nor
    empty, and for a null or empty hint it appends nothing before
    " --quiet 2>&1": the command is given in full for both cases, and it
    is the described command line, whose argument list holds -t exactly
    for such a hint.  As a statement about the text of the command this
    needs the install directory and the two paths to be free of " -t ":
    then the command holds " -t " if and only if the hint is neither null
    nor empty. *)
Theorem BuildCLICommand_format_flag
    (inputFile outputFile : string) (inputFormat outputFormat : option string) :
  BuildCLICommand env inputFile outputFile inputFormat outputFormat
  = "cd /d " +:+ quoted (install_dir env) +:+ " && "
      +:+ unwords (tool_arguments inputFile outputFile outputFormat)
  /\ (In "-t" (tool_arguments inputFile outputFile outputFormat)
      <-> exists fmt, outputFormat = Some fmt /\ fmt <> "")
  /\ (forall fmt, outputFormat = Some fmt -> fmt <> "" ->
      BuildCLICommand env inputFile outputFile inputFormat outputFormat
      = "cd /d " +:+ quoted (install_dir env) +:+ " && python cli.py "
          +:+ quoted inputFile +:+ " -o " +:+ quoted outputFile
          +:+ " -t " +:+ fmt +:+ " --quiet 2>&1")
  /\ (outputFormat = None \/ outputFormat = Some "" ->
      BuildCLICommand env inputFile outputFile inputFormat outputFormat
      = "cd /d " +:+ quoted (install_dir env) +:+ " && python cli.py "
          +:+ quoted inputFile +:+ " -o " +:+ quoted outputFile
          +:+ " --quiet 2>&1")
  /\ (~ occurs " -t " (install_dir env) ->
      ~ occurs " -t " inputFile ->
      ~ occurs " -t " outputFile ->
      (occurs " -t " (BuildCLICommand env inputFile outputFile inputFormat outputFormat)
       <-> exists fmt, outputFormat = Some fmt /\ fmt <> "")).
Proof.
  split; [| split; [| split; [| split]]].
  - apply BuildCLICommand_command_line.
  - unfold tool_arguments, quoted, dquote.
    destruct outputFormat as [[|c fmt]|]; cbn [format_flag app In]; split.
    + intros H. repeat destruct H as [H | H]; try discriminate; contradiction.
    + intros (fmt & [= <-] & Hne). contradiction.
    + intros _. exists (String c fmt). split; [reflexivity | discriminate].
    + intros _. tauto.
    + intros H. repeat destruct H as [H | H]; try discriminate; contradiction.
    + intros (fmt & [=] & _).
  - intros fmt -> Hne. destruct fmt as [|c fmt]; [contradiction |].
    rewrite BuildCLICommand_command_line.
    unfold command_line, tool_arguments. cbn [format_flag app unwords].
    rewrite ?str_app_assoc. reflexivity.
  - rewrite BuildCLICommand_command_line.
    intros [-> | ->]; unfold command_line, tool_arguments;
      cbn [format_flag app unwords]; rewrite ?str_app_assoc; reflexivity.
  - intros Hdir Hin Hout. rewrite occurs_flag_text_command. tauto.
Qed.

End Properties.

(** * The theorems at work on the sample worlds *)

(** ** ConvertDocument *)

(** An empty input path with a usable output path: turned away without a
    subprocess, as the amended C1 says. *)
Lemma ConvertDocument_missing_path_witness :
  (@None string = None \/ Some "out.txt" = None \/ Some "" = Some "")
  /\ exists st',
       ConvertDocument (host no_shell) (Some "") (Some "out.txt") None None fresh_state
       = Normal UC_ERROR st'
       /\ g_lastError st' <> ""
       /\ spawned st' = spawned fresh_state
       /\ files st' = files fresh_state.
Proof.
  split; [right; right; reflexivity |].
  apply (ConvertDocument_missing_path (host no_shell)
           (Some "") (Some "out.txt") None None fresh_state).
  right; right; reflexivity.
Defined.

(** C1 as stated fails for an empty output path: the input file is there,
    so the command is built and handed to [_popen], and the status is
    FAILURE, not ERROR. *)
Lemma ConvertDocument_empty_output_runs_tool :
  let env := host (tool_prints "usage: cli.py input -o output") in
  let result := ConvertDocument env (Some "report.pdf") (Some "") None None fresh_state in
  result
  = Normal UC_FAILURE
      {| g_lastError := "Conversion failed - output file not created";
         files := sample_files;
         spawned := [BuildCLICommand env "report.pdf" "" None None] |}
  /\ ~ (exists st', result = Normal UC_ERROR st')
  /\ ~ (exists status st', result = Normal status st' /\ spawned st' = spawned fresh_state).
Proof.
  cbv zeta.
  assert (H : ConvertDocument (host (tool_prints "usage: cli.py input -o output"))
                (Some "report.pdf") (Some "") None None fresh_state
              = Normal UC_FAILURE
                  {| g_lastError := "Conversion failed - output file not created";
                     files := sample_files;
                     spawned := [BuildCLICommand
                                   (host (tool_prints "usage: cli.py input -o output"))
                                   "report.pdf" "" None None] |})
    by (vm_compute; reflexivity).
  rewrite H. split; [reflexivity |]. split.
  - intros [st' Hst]. discriminate.
  - intros (status & st' & [= <- <-] & Hsp). discriminate.
Qed.

(** A missing input file with a short name: ERROR, and only the last-error
    text has changed. *)
Lemma ConvertDocument_input_not_found_witness :
  ifstream_open "missing.pdf" (files fresh_state) = None
  /\ (strlen "missing.pdf" <= 489)%nat
  /\ exists st',
       ConvertDocument (host no_shell) (Some "missing.pdf") (Some "out.txt")
         (Some "pdf") (Some "txt") fresh_state
       = Normal UC_ERROR st'
       /\ g_lastError st' = "Input file not found: " +:+ "missing.pdf"
       /\ spawned st' = spawned fresh_state
       /\ files st' = files fresh_state.
Proof.
  split; [reflexivity |]. split; [vm_compute; lia |].
  apply (ConvertDocument_input_not_found (host no_shell)
           "missing.pdf" "out.txt" (Some "pdf") (Some "txt") fresh_state).
  - reflexivity.
  - vm_compute; lia.
Defined.

(** C10 as stated fails in two ways.  With a null output path the input
    file is missing just the same, yet the message is the generic one and
    does not name it.  With a path of 496 characters the message does not
    fit the buffer: the process ends under the CRT's own handler, and under
    a handler that returns the last-error text is left empty. *)
Lemma ConvertDocument_missing_input_not_named :
  (ifstream_open "missing.pdf" (files fresh_state) = None
   /\ ConvertDocument (host no_shell) (Some "missing.pdf") None None None fresh_state
      = Normal UC_ERROR (set_lastError "Invalid input parameters" fresh_state)
   /\ string_find "missing.pdf" "Invalid input parameters" = None)
  /\ (ifstream_open long_path (files fresh_state) = None
      /\ ConvertDocument (host no_shell) (Some long_path) (Some "out.txt") None None
           fresh_state
         = Terminated
      /\ ConvertDocument (lenient_host no_shell) (Some long_path) (Some "out.txt") None None
           fresh_state
         = Normal UC_ERROR (set_lastError "" fresh_state)).
Proof.
  repeat split; vm_compute; reflexivity.
Qed.

(** The tool writes report.txt: SUCCESS, whatever it printed.  The tool
    writes nothing: FAILURE with the generic message. *)
Lemma ConvertDocument_follows_output_witness :
  let command :=
    BuildCLICommand (host no_shell) "report.pdf" "report.txt" (Some "pdf") (Some "txt") in
  let started := log_spawn command fresh_state in
  ConvertDocument (host (tool_writes "report.txt" "Traceback: warning"))
    (Some "report.pdf") (Some "report.txt") (Some "pdf") (Some "txt") fresh_state
  = Normal UC_SUCCESS
      (set_files (<["report.txt" := [Byte.x68; Byte.x69]]> sample_files) started)
  /\ exists msg,
       ConvertDocument (host (tool_prints "Traceback: warning"))
         (Some "report.pdf") (Some "report.txt") (Some "pdf") (Some "txt") fresh_state
       = Normal UC_FAILURE (set_lastError msg started)
       /\ msg <> ""
       /\ (g_lastError started = "" -> msg = "Conversion failed - output file not created")
       /\ (g_lastError started <> "" -> msg = g_lastError started).
Proof.
  cbv zeta. split.
  - apply (ConvertDocument_follows_output
             (host (tool_writes "report.txt" "Traceback: warning"))
             "report.pdf" "report.txt" (Some "pdf") (Some "txt") fresh_state _
             "Traceback: warning").
    + exists sample_pdf. reflexivity.
    + vm_compute. reflexivity.
    + exists [Byte.x68; Byte.x69]. vm_compute. reflexivity.
  - apply (ConvertDocument_follows_output
             (host (tool_prints "Traceback: warning"))
             "report.pdf" "report.txt" (Some "pdf") (Some "txt") fresh_state _
             "Traceback: warning").
    + exists sample_pdf. reflexivity.
    + vm_compute. reflexivity.
    + vm_compute. reflexivity.
Defined.

(** C3 as stated fails when an exception comes out of the helper: the
    input file opens, the tool has written report.txt, the helper then
    throws, and the catch block answers ERROR although the output file is
    there. *)
Lemma ConvertDocument_output_present_yet_error :
  let env := host (fun _ fs => PipeThrow (StdException "bad allocation")
                                 (<["report.txt" := [Byte.x68; Byte.x69]]> fs)) in
  let afterwards :=
    {| g_lastError := "Exception: bad allocation";
       files := <["report.txt" := [Byte.x68; Byte.x69]]> sample_files;
       spawned := [BuildCLICommand env "report.pdf" "report.txt" None (Some "txt")] |} in
  ifstream_open "report.pdf" (files fresh_state) = Some sample_pdf
  /\ ConvertDocument env (Some "report.pdf") (Some "report.txt") None (Some "txt")
       fresh_state
     = Normal UC_ERROR afterwards
  /\ ifstream_open "report.txt" (files afterwards) = Some [Byte.x68; Byte.x69]
  /\ UC_ERROR <> UC_SUCCESS.
Proof.
  cbv zeta. split; [reflexivity |]. split; [vm_compute; reflexivity |].
  split; [vm_compute; reflexivity | discriminate].
Qed.

(** ** TestConnection *)

(** The interpreter answers and cli.py is in place: SUCCESS.  The probe
    logged its one command. *)
Lemma TestConnection_status_witness :
  let probed := log_spawn probe_command installed_state in
  ExecutePythonCLI (host (tool_prints "Python 3.11.4")) probe_command
    (set_lastError "" installed_state) = Normal "Python 3.11.4" probed
  /\ TestConnection (host (tool_prints "Python 3.11.4")) installed_state
     = Normal UC_SUCCESS probed.
Proof.
  cbv zeta.
  assert (Hrun : ExecutePythonCLI (host (tool_prints "Python 3.11.4")) probe_command
                   (set_lastError "" installed_state)
                 = Normal "Python 3.11.4" (log_spawn probe_command installed_state))
    by (vm_compute; reflexivity).
  split; [exact Hrun |].
  destruct (TestConnection_status (host (tool_prints "Python 3.11.4")) installed_state)
    as [Hreturned _].
  destruct (Hreturned _ _ Hrun) as [Hsuccess _].
  apply Hsuccess. split.
  - exists "", " 3.11.4". reflexivity.
  - exists [Byte.x23]. vm_compute. reflexivity.
Defined.

Example TestConnection_without_script :
  TestConnection (host (tool_prints "Python 3.11.4")) fresh_state
  = Normal UC_FAILURE
      (set_lastError "CLI script not found" (log_spawn probe_command fresh_state)).
Proof. vm_compute. reflexivity. Qed.

Example TestConnection_without_interpreter :
  TestConnection (host (tool_prints "'python' is not recognized")) installed_state
  = Normal UC_FAILURE
      (set_lastError "Python not available" (log_spawn probe_command installed_state)).
Proof. vm_compute. reflexivity. Qed.

Example TestConnection_without_shell :
  TestConnection (host no_shell) installed_state
  = Normal UC_FAILURE
      (set_lastError "Python not available" (log_spawn probe_command installed_state)).
Proof. vm_compute. reflexivity. Qed.

Example TestConnection_exception :
  TestConnection (host (tool_throws (StdException "bad allocation"))) installed_state
  = Normal UC_ERROR
      (set_lastError "Connection test failed" (log_spawn probe_command installed_state)).
Proof. vm_compute. reflexivity. Qed.

(** ** GetFileInfo *)

Example GetFileInfo_report :
  GetFileInfo (host no_shell) (Some "report.pdf") (Some "") 14 fresh_state
  = Normal (UC_SUCCESS, Some "Size: 4 bytes") fresh_state.
Proof. vm_compute. reflexivity. Qed.

(** C6: for a missing file whose path has 496 characters, "File not found: "
    and the path need 513 bytes with the NUL.  [sprintf_s] refuses, and
    under the CRT's own handler GetFileInfo does not return ERROR: it does
    not return.  One character less and it does. *)
Theorem GetFileInfo_long_missing_path :
  strlen long_path = 496%nat
  /\ ifstream_open long_path (files fresh_state) = None
  /\ GetFileInfo (host no_shell) (Some long_path) (Some "") 64 fresh_state = Terminated
  /\ GetFileInfo (host no_shell) (Some (repeat_char "a" 495)) (Some "") 64 fresh_state
     = Normal (UC_ERROR, Some "")
         (set_lastError ("File not found: " +:+ repeat_char "a" 495) fresh_state).
Proof.
  split; [reflexivity |]. split; [reflexivity |]. split.
  - rewrite GetFileInfo_path_too_long; [reflexivity | lia | reflexivity |].
    vm_compute. lia.
  - apply GetFileInfo_file_not_found; [lia | reflexivity |].
    vm_compute. lia.
Qed.

(** ** The command line *)

Lemma BuildCLICommand_format_flag_witness :
  BuildCLICommand (host no_shell) "report.pdf" "report.md" (Some "pdf") (Some "md")
  = "cd /d " +:+ quoted "C:\Legacy\Host" +:+ " && python cli.py "
      +:+ quoted "report.pdf" +:+ " -o " +:+ quoted "report.md"
      +:+ " -t md --quiet 2>&1"
  /\ BuildCLICommand (host no_shell) "report.pdf" "report.md" (Some "pdf") (Some "")
     = "cd /d " +:+ quoted "C:\Legacy\Host" +:+ " && python cli.py "
         +:+ quoted "report.pdf" +:+ " -o " +:+ quoted "report.md"
         +:+ " --quiet 2>&1"
  /\ (occurs " -t "
        (BuildCLICommand (host no_shell) "report.pdf" "report.md" (Some "pdf") (Some "md"))
      <-> exists fmt, Some "md" = Some fmt /\ fmt <> "")
  /\ (occurs " -t "
        (BuildCLICommand (host no_shell) "report.pdf" "report.md" (Some "pdf") (Some ""))
      <-> exists fmt, Some "" = Some fmt /\ fmt <> "").
Proof.
  assert (Hfree : forall s, string_find " -t " s = None -> ~ occurs " -t " s).
  { intros s Hs Ho. apply occurs_find in Ho as [x Hx]. congruence. }
  split; [| split; [| split]].
  - destruct (BuildCLICommand_format_flag (host no_shell)
                "report.pdf" "report.md" (Some "pdf") (Some "md"))
      as (_ & _ & Hflag & _).
    rewrite (Hflag "md"); [reflexivity | reflexivity | discriminate].
  - destruct (BuildCLICommand_format_flag (host no_shell)
                "report.pdf" "report.md" (Some "pdf") (Some ""))
      as (_ & _ & _ & Hnone & _).
    rewrite Hnone; [reflexivity | right; reflexivity].
  - destruct (BuildCLICommand_format_flag (host no_shell)
                "report.pdf" "report.md" (Some "pdf") (Some "md"))
      as (_ & _ & _ & _ & Htext).
    apply Htext; apply Hfree; reflexivity.
  - destruct (BuildCLICommand_format_flag (host no_shell)
                "report.pdf" "report.md" (Some "pdf") (Some ""))
      as (_ & _ & _ & _ & Htext).
    apply Htext; apply Hfree; reflexivity.
Defined.

(** C7 as stated fails for a path that holds a quote.  The output path
    out.md, a quote, " -t ", a quote and json, with a null hint, gives the
    very command that the path out.md and the hint json between quotes
    give: the text of the command holds " -t " and json as the argument
    after it, although no hint was passed. *)
Lemma BuildCLICommand_flag_without_hint :
  let crafted := "out.md" +:+ dquote +:+ " -t " +:+ dquote +:+ "json" in
  let command := BuildCLICommand (host no_shell) "report.pdf" crafted None None in
  command
  = "cd /d " +:+ quoted "C:\Legacy\Host" +:+ " && python cli.py "
      +:+ quoted "report.pdf" +:+ " -o " +:+ quoted "out.md"
      +:+ " -t " +:+ quoted "json" +:+ " --quiet 2>&1"
  /\ command
     = BuildCLICommand (host no_shell) "report.pdf" "out.md" None (Some (quoted "json"))
  /\ occurs " -t " command
  /\ ~ (exists fmt, @None string = Some fmt /\ fmt <> "").
Proof.
  cbv zeta. split; [vm_compute; reflexivity |]. split; [vm_compute; reflexivity |].
  split.
  - apply occurs_find. vm_compute. eauto.
  - intros (fmt & H & _). discriminate.
Qed.

(** * Further properties of the helpers and the exported functions *)

(** ** The read loop *)

Lemma c_str_is_text (s : string) : no_nul (c_str s) = true.
Proof.
  induction s as [|c s IH]; [reflexivity |].
  cbn [c_str]. destruct (Ascii.eqb c "000"%char) eqn:Hc; [reflexivity |].
  cbn [no_nul]. now rewrite Hc, IH.
Qed.

Lemma read_pipe_is_text (fuel : nat) (stream result : string) :
  no_nul result = true -> no_nul (read_pipe fuel stream result) = true.
Proof.
  revert stream result. induction fuel as [|fuel IH]; intros stream result Hr;
    [exact Hr |].
  cbn [read_pipe]. destruct (fgets 128 stream) as [[buffer rest]|]; [| exact Hr].
  apply IH. now rewrite no_nul_append, Hr, c_str_is_text.
Qed.

Lemma c_str_length (s : string) : (String.length (c_str s) <= String.length s)%nat.
Proof.
  induction s as [|c s IH]; [reflexivity |].
  cbn [c_str]. destruct (Ascii.eqb c "000"%char); simpl; lia.
Qed.

Lemma read_pipe_length (fuel : nat) (stream result : string) :
  (String.length (read_pipe fuel stream result)
   <= String.length result + String.length stream)%nat.
Proof.
  revert stream result. induction fuel as [|fuel IH]; intros stream result;
    [simpl; lia |].
  cbn [read_pipe]. destruct stream as [|c rest]; [simpl; lia |].
  cbn [fgets]. change (128 - 1)%nat with (S 126).
  pose proof (fgets_split_append (S 126) (String c rest)) as Happ.
  destruct (fgets_split (S 126) (String c rest)) as [buffer rest'].
  cbn [fst snd] in Happ.
  specialize (IH rest' (result +:+ c_str buffer)).
  rewrite str_length_app in IH.
  pose proof (c_str_length buffer) as Hc.
  apply (f_equal String.length) in Happ. rewrite str_length_app in Happ.
  lia.
Qed.

Section Helper.
Context (env : Env).

(** X1: whatever the text-mode stream delivers, as long as it holds no
    NUL, the helper returns all of it, however long the lines are: reading
    in chunks of 127 characters loses nothing.  The files are the ones the
    child left, the command is logged, and the last-error text is not
    touched. *)
Theorem ExecutePythonCLI_collects_stream
    (command out : string) (fs' : gmap string (list Byte.byte)) (st : State) :
  popen env command (files st) = PipeStream out fs' ->
  no_nul out = true ->
  exists st',
    ExecutePythonCLI env command st = Normal out st'
    /\ files st' = fs'
    /\ spawned st' = command :: spawned st
    /\ g_lastError st' = g_lastError st.
Proof.
  intros Hp Hnul. eexists. split.
  - pose proof (ExecutePythonCLI_cases env command st) as H.
    rewrite Hp in H. rewrite H, read_pipe_whole by (lia || assumption).
    reflexivity.
  - repeat split.
Qed.

(** X2: what the helper returns never holds a NUL and is never longer
    than what the child wrote: a chunk is appended as a C string, so what
    follows a NUL inside a chunk is dropped. *)
Theorem ExecutePythonCLI_output_is_text
    (command output : string) (st st' : State) :
  ExecutePythonCLI env command st = Normal output st' ->
  no_nul output = true
  /\ (forall out fs', popen env command (files st) = PipeStream out fs' ->
        (String.length output <= String.length out)%nat).
Proof.
  intros H. pose proof (ExecutePythonCLI_cases env command st) as Hc.
  destruct (popen env command (files st)) as [|out fs'|e fs'] eqn:Hp;
    rewrite Hc in H.
  - injection H as <- _. split; [reflexivity | intros ? ? [=]].
  - injection H as <- _. split; [now apply read_pipe_is_text |].
    intros out' fs'' [= <- <-].
    pose proof (read_pipe_length (String.length out) out "") as Hl.
    simpl in Hl. exact Hl.
  - discriminate.
Qed.

End Helper.

Lemma ExecutePythonCLI_collects_stream_witness :
  let out := repeat_char "x" 300 +:+ String newline "done" in
  popen (host (tool_prints out)) "dir" (files fresh_state) = PipeStream out sample_files
  /\ no_nul out = true
  /\ exists st',
       ExecutePythonCLI (host (tool_prints out)) "dir" fresh_state = Normal out st'
       /\ files st' = sample_files
       /\ spawned st' = "dir" :: spawned fresh_state
       /\ g_lastError st' = g_lastError fresh_state.
Proof.
  cbv zeta. split; [reflexivity |]. split; [vm_compute; reflexivity |].
  apply (ExecutePythonCLI_collects_stream
           (host (tool_prints (repeat_char "x" 300 +:+ String newline "done")))
           "dir" _ sample_files fresh_state).
  - reflexivity.
  - vm_compute. reflexivity.
Defined.

Lemma ExecutePythonCLI_output_is_text_witness :
  let out := String "a" (String "b" (String "000" (String "c" ""))) in
  ExecutePythonCLI (host (tool_prints out)) "dir" fresh_state
  = Normal "ab" (log_spawn "dir" fresh_state)
  /\ no_nul "ab" = true
  /\ (forall out' fs', popen (host (tool_prints out)) "dir" (files fresh_state)
                       = PipeStream out' fs' ->
        (String.length "ab" <= String.length out')%nat).
Proof.
  cbv zeta.
  assert (H : ExecutePythonCLI
                (host (tool_prints (String "a" (String "b" (String "000" (String "c" ""))))))
                "dir" fresh_state
              = Normal "ab" (log_spawn "dir" fresh_state))
    by (vm_compute; reflexivity).
  split; [exact H |].
  exact (ExecutePythonCLI_output_is_text _ _ _ _ _ H).
Defined.

(** ** ConvertDocument beyond the output check *)

Section Conversion.
Context (env : Env).

(** What ConvertDocument does when the helper throws. *)
Lemma ConvertDocument_after_throw
    (inputFile outputFile : string) (inputFormat outputFormat : option string)
    (st st1 : State) (e : exn) :
  is_Some (ifstream_open inputFile (files st)) ->
  ExecutePythonCLI env
    (BuildCLICommand env inputFile outputFile inputFormat outputFormat)
    (set_lastError "" st) = Throw e st1 ->
  ConvertDocument env (Some inputFile) (Some outputFile) inputFormat outputFormat st
  = match e with
    | StdException what =>
        (sprintf_s_lastError env "Exception: " what >> ret UC_ERROR) st1
    | OtherException =>
        Normal UC_ERROR (set_lastError "Unknown error occurred" st1)
    end.
Proof.
  intros Hin Hrun.
  unfold ConvertDocument, clear_lastError. unfold bind at 1 2.
  rewrite FileExists_true by exact Hin. cbn [negb].
  unfold try_catch, bind at 1. rewrite Hrun. now destruct e.
Qed.

(** X3: when the shell cannot be started, nothing has run, yet the answer
    still follows the output path: SUCCESS if a file was already there,
    FAILURE otherwise.  Either way the last-error text says that the
    helper could not be executed, and the files are as before. *)
Theorem ConvertDocument_shell_not_started
    (inputFile outputFile : string) (inputFormat outputFormat : option string)
    (st : State) :
  is_Some (ifstream_open inputFile (files st)) ->
  popen env (BuildCLICommand env inputFile outputFile inputFormat outputFormat)
    (files st) = PipeNull ->
  exists st',
    ConvertDocument env (Some inputFile) (Some outputFile) inputFormat outputFormat st
    = Normal (if bool_decide (is_Some (ifstream_open outputFile (files st)))
              then UC_SUCCESS else UC_FAILURE) st'
    /\ g_lastError st' = "Failed to execute Python CLI"
    /\ files st' = files st.
Proof.
  intros Hin Hp.
  set (command := BuildCLICommand env inputFile outputFile inputFormat outputFormat) in *.
  pose proof (ExecutePythonCLI_cases env command (set_lastError "" st)) as Hrun.
  cbn [files set_lastError] in Hrun. rewrite Hp in Hrun.
  rewrite (ConvertDocument_after_helper env _ _ _ _ _ _ _ Hin Hrun).
  cbn [files set_lastError log_spawn g_lastError].
  destruct (bool_decide (is_Some (ifstream_open outputFile (files st))));
    eexists; repeat split.
Qed.

(** X4: when an exception comes out of the helper, ConvertDocument never
    answers SUCCESS or FAILURE, also when the tool has written the output
    file by then.  Anything that is not a [std::exception] gives ERROR
    with "Unknown error occurred"; a [std::exception] whose text has at
    most 500 characters gives ERROR with "Exception: " and that text; for
    a longer text the message does not fit, and the call gives ERROR with
    an empty last-error text if the invalid-parameter handler returns and
    ends the process if it does not.  The files are as the tool left
    them. *)
Theorem ConvertDocument_exception_is_error
    (inputFile outputFile : string) (inputFormat outputFormat : option string)
    (st : State) (e : exn) (fs' : gmap string (list Byte.byte)) :
  is_Some (ifstream_open inputFile (files st)) ->
  popen env (BuildCLICommand env inputFile outputFile inputFormat outputFormat)
    (files st) = PipeThrow e fs' ->
  let thrown :=
    set_files fs'
      (log_spawn (BuildCLICommand env inputFile outputFile inputFormat outputFormat) st) in
  ConvertDocument env (Some inputFile) (Some outputFile) inputFormat outputFormat st
  = match e with
    | OtherException => Normal UC_ERROR (set_lastError "Unknown error occurred" thrown)
    | StdException what =>
        if bool_decide (strlen what <= 500)%nat
        then Normal UC_ERROR (set_lastError ("Exception: " +:+ what) thrown)
        else if handler_returns env
             then Normal UC_ERROR (set_lastError "" thrown)
             else Terminated
    end.
Proof.
  intros Hin Hp thrown. subst thrown.
  set (command := BuildCLICommand env inputFile outputFile inputFormat outputFormat) in *.
  pose proof (ExecutePythonCLI_cases env command (set_lastError "" st)) as Hrun.
  cbn [files set_lastError] in Hrun. rewrite Hp in Hrun.
  rewrite (ConvertDocument_after_throw _ _ _ _ _ _ _ Hin Hrun).
  destruct e as [what|]; [| reflexivity].
  unfold bind. destruct (bool_decide_reflect (strlen what <= 500)%nat) as [Hfit | Hfit].
  - rewrite sprintf_s_lastError_fits by buffer_bound. reflexivity.
  - rewrite sprintf_s_lastError_overflow by buffer_bound.
    destruct (handler_returns env); reflexivity.
Qed.

(** X5: ConvertDocument hands at most one command to [_popen], and exactly
    one, the command it built, when both paths are non-null and the input
    file opens.  Nothing is retried. *)
Theorem ConvertDocument_spawns_once
    (inputFile outputFile inputFormat outputFormat : option string)
    (st st' : State) (status : Z) :
  ConvertDocument env inputFile outputFile inputFormat outputFormat st
  = Normal status st' ->
  spawned st'
  = match inputFile, outputFile with
    | Some inFile, Some outFile =>
        if bool_decide (is_Some (ifstream_open inFile (files st)))
        then BuildCLICommand env inFile outFile inputFormat outputFormat :: spawned st
        else spawned st
    | _, _ => spawned st
    end.
Proof.
  destruct inputFile as [inFile|]; [destruct outputFile as [outFile|] |];
    [| rewrite ConvertDocument_null_path by auto; now intros [= _ <-] ..].
  destruct (ifstream_open inFile (files st)) as [bytes|] eqn:Hopen.
  - assert (Hin : is_Some (ifstream_open inFile (files st))) by (rewrite Hopen; eauto).
    rewrite bool_decide_eq_true_2 by (rewrite <- Hopen; exact Hin).
    set (command := BuildCLICommand env inFile outFile inputFormat outputFormat).
    pose proof (ExecutePythonCLI_cases env command (set_lastError "" st)) as Hrun.
    destruct (popen env command (files (set_lastError "" st))) as [|out fs'|e fs'].
    + rewrite (ConvertDocument_after_helper env _ _ _ _ _ _ _ Hin Hrun).
      destruct (bool_decide _); now intros [= _ <-].
    + rewrite (ConvertDocument_after_helper env _ _ _ _ _ _ _ Hin Hrun).
      destruct (bool_decide _); now intros [= _ <-].
    + rewrite (ConvertDocument_after_throw _ _ _ _ _ _ _ Hin Hrun).
      destruct e as [what|]; [| now intros [= _ <-]].
      unfold bind, sprintf_s_lastError, invalid_parameter.
      destruct (fits _ _); [now intros [= _ <-] |].
      destruct (handler_returns env); [now intros [= _ <-] | discriminate].
  - rewrite bool_decide_eq_false_2 by (intros [x Hx]; discriminate).
    unfold ConvertDocument, clear_lastError, bind.
    rewrite FileExists_false by exact Hopen. cbn [negb].
    unfold sprintf_s_lastError, invalid_parameter.
    destruct (fits _ _); [now intros [= _ <-] |].
    destruct (handler_returns env); [now intros [= _ <-] | discriminate].
Qed.

End Conversion.

(** No shell, and the output path names a file that is already there:
    SUCCESS without anything having run. *)
Lemma ConvertDocument_shell_not_started_witness :
  is_Some (ifstream_open "report.pdf" (files fresh_state))
  /\ popen (host no_shell)
       (BuildCLICommand (host no_shell) "report.pdf" "report.pdf" None None)
       (files fresh_state) = PipeNull
  /\ exists st',
       ConvertDocument (host no_shell) (Some "report.pdf") (Some "report.pdf") None None
         fresh_state
       = Normal (if bool_decide (is_Some (ifstream_open "report.pdf" (files fresh_state)))
                 then UC_SUCCESS else UC_FAILURE) st'
       /\ g_lastError st' = "Failed to execute Python CLI"
       /\ files st' = files fresh_state.
Proof.
  assert (Hin : is_Some (ifstream_open "report.pdf" (files fresh_state)))
    by (exists sample_pdf; reflexivity).
  split; [exact Hin |]. split; [reflexivity |].
  apply (ConvertDocument_shell_not_started (host no_shell)
           "report.pdf" "report.pdf" None None fresh_state Hin).
  reflexivity.
Defined.

(** The tool writes report.txt and the helper then runs out of memory:
    ERROR, with the file in place. *)
Lemma ConvertDocument_exception_is_error_witness :
  let env := host (fun _ fs => PipeThrow (StdException "bad allocation")
                                 (<["report.txt" := []]> fs)) in
  let thrown :=
    set_files (<["report.txt" := []]> sample_files)
      (log_spawn (BuildCLICommand env "report.pdf" "report.txt" None (Some "txt"))
         fresh_state) in
  is_Some (ifstream_open "report.txt" (files thrown))
  /\ ConvertDocument env (Some "report.pdf") (Some "report.txt") None (Some "txt")
       fresh_state
     = if bool_decide (strlen "bad allocation" <= 500)%nat
       then Normal UC_ERROR (set_lastError ("Exception: " +:+ "bad allocation") thrown)
       else if handler_returns env
            then Normal UC_ERROR (set_lastError "" thrown)
            else Terminated.
Proof.
  cbv zeta. split; [exists []; vm_compute; reflexivity |].
  apply (ConvertDocument_exception_is_error
           (host (fun _ fs => PipeThrow (StdException "bad allocation")
                                (<["report.txt" := []]> fs)))
           "report.pdf" "report.txt" None (Some "txt") fresh_state
           (StdException "bad allocation") (<["report.txt" := []]> sample_files)).
  - exists sample_pdf. reflexivity.
  - reflexivity.
Defined.

Lemma ConvertDocument_spawns_once_witness :
  let env := host (tool_writes "report.txt" "ok") in
  let command := BuildCLICommand env "report.pdf" "report.txt" None (Some "txt") in
  let st' := set_files (<["report.txt" := [Byte.x68; Byte.x69]]> sample_files)
               (log_spawn command fresh_state) in
  ConvertDocument env (Some "report.pdf") (Some "report.txt") None (Some "txt") fresh_state
  = Normal UC_SUCCESS st'
  /\ spawned st'
     = if bool_decide (is_Some (ifstream_open "report.pdf" (files fresh_state)))
       then command :: spawned fresh_state
       else spawned fresh_state.
Proof.
  cbv zeta.
  assert (H : ConvertDocument (host (tool_writes "report.txt" "ok"))
                (Some "report.pdf") (Some "report.txt") None (Some "txt") fresh_state
              = Normal UC_SUCCESS
                  (set_files (<["report.txt" := [Byte.x68; Byte.x69]]> sample_files)
                     (log_spawn
                        (BuildCLICommand (host (tool_writes "report.txt" "ok"))
                           "report.pdf" "report.txt" None (Some "txt"))
                        fresh_state)))
    by (vm_compute; reflexivity).
  split; [exact H |].
  exact (ConvertDocument_spawns_once _ _ _ _ _ _ _ _ H).
Defined.

Section Outcomes.
Context (env : Env).

(** Whatever [strcpy_s] and [sprintf_s] leave in [g_lastError] fits it. *)
Lemma strcpy_s_lastError_bounded (src : string) (st st' : State) (u : unit) :
  strcpy_s_lastError env src st = Normal u st' ->
  (strlen (g_lastError st') < sizeof_g_lastError)%nat
  /\ spawned st' = spawned st /\ files st' = files st.
Proof.
  unfold strcpy_s_lastError, fits, invalid_parameter.
  destruct (bool_decide_reflect (Z.of_nat (strlen src) < Z.of_nat sizeof_g_lastError)).
  - intros [= <- <-]. cbn [g_lastError set_lastError spawned files]. repeat split. lia.
  - destruct (handler_returns env); [| discriminate].
    intros [= <- <-]. cbn [g_lastError set_lastError spawned files].
    repeat split. unfold sizeof_g_lastError. simpl. lia.
Qed.

Lemma sprintf_s_lastError_bounded (text arg : string) (st st' : State) (u : unit) :
  sprintf_s_lastError env text arg st = Normal u st' ->
  (strlen (g_lastError st') < sizeof_g_lastError)%nat
  /\ spawned st' = spawned st /\ files st' = files st.
Proof.
  unfold sprintf_s_lastError, fits, invalid_parameter.
  destruct (bool_decide_reflect
              (Z.of_nat (strlen (text +:+ arg)) < Z.of_nat sizeof_g_lastError)).
  - intros [= <- <-]. cbn [g_lastError set_lastError spawned files]. repeat split. lia.
  - destruct (handler_returns env); [| discriminate].
    intros [= <- <-]. cbn [g_lastError set_lastError spawned files].
    repeat split. unfold sizeof_g_lastError. simpl. lia.
Qed.

(** The helper leaves the last-error text as it was or sets its own
    message. *)
Lemma ExecutePythonCLI_lastError (command output : string) (st st1 : State) :
  ExecutePythonCLI env command st = Normal output st1 ->
  g_lastError st1 = g_lastError st
  \/ g_lastError st1 = "Failed to execute Python CLI".
Proof.
  pose proof (ExecutePythonCLI_cases env command st) as H.
  destruct (popen env command (files st)); rewrite H;
    [intros [= _ <-]; now right | intros [= _ <-]; now left | discriminate].
Qed.

(** X6: the status ConvertDocument returns is 1, 0 or -1, and it fixes what
    the last-error text can be: after SUCCESS it is empty or the helper's
    "Failed to execute Python CLI"; after FAILURE it is that message or
    "Conversion failed - output file not created", never empty. *)
Theorem ConvertDocument_status_and_lastError
    (inputFile outputFile inputFormat outputFormat : option string)
    (st st' : State) (status : Z) :
  ConvertDocument env inputFile outputFile inputFormat outputFormat st
  = Normal status st' ->
  (status = UC_SUCCESS \/ status = UC_FAILURE \/ status = UC_ERROR)
  /\ (status = UC_SUCCESS ->
        g_lastError st' = "" \/ g_lastError st' = "Failed to execute Python CLI")
  /\ (status = UC_FAILURE ->
        g_lastError st' = "Conversion failed - output file not created"
        \/ g_lastError st' = "Failed to execute Python CLI").
Proof.
  destruct inputFile as [inFile|]; [destruct outputFile as [outFile|] |];
    [| rewrite ConvertDocument_null_path by auto; intros [= <- _];
       (split; [auto | split; discriminate]) ..].
  destruct (ifstream_open inFile (files st)) as [bytes|] eqn:Hopen.
  - assert (Hin : is_Some (ifstream_open inFile (files st))) by (rewrite Hopen; eauto).
    set (command := BuildCLICommand env inFile outFile inputFormat outputFormat).
    destruct (ExecutePythonCLI env command (set_lastError "" st))
      as [output st1 | e st1 |] eqn:Hrun.
    + rewrite (ConvertDocument_after_helper env _ _ _ _ _ _ _ Hin Hrun).
      destruct (ExecutePythonCLI_lastError _ _ _ _ Hrun) as [Hl | Hl];
        cbn [g_lastError set_lastError] in Hl;
        destruct (bool_decide (is_Some (ifstream_open outFile (files st1))));
        intros [= <- <-]; cbn [g_lastError set_lastError]; rewrite ?Hl; cbn;
        (split; [auto | split; [intros; auto; try discriminate
                               | intros; auto; try discriminate]]).
    + rewrite (ConvertDocument_after_throw _ _ _ _ _ _ _ _ Hin Hrun).
      destruct e as [what|].
      * unfold bind. destruct (sprintf_s_lastError env "Exception: " what st1);
          [| discriminate ..].
        intros [= <- _]. split; [auto | split; discriminate].
      * intros [= <- _]. split; [auto | split; discriminate].
    + pose proof (ExecutePythonCLI_cases env command (set_lastError "" st)) as Hc.
      destruct (popen env command (files (set_lastError "" st)));
        rewrite Hc in Hrun; discriminate.
  - unfold ConvertDocument, clear_lastError, bind.
    rewrite FileExists_false by exact Hopen. cbn [negb].
    destruct (sprintf_s_lastError env "Input file not found: " inFile _);
      [| discriminate ..].
    intros [= <- _]. split; [auto | split; discriminate].
Qed.

End Outcomes.

Lemma ConvertDocument_status_and_lastError_witness :
  let env := host (tool_prints "no converter for this format") in
  let command := BuildCLICommand env "report.pdf" "report.txt" None None in
  let st' := set_lastError "Conversion failed - output file not created"
               (log_spawn command fresh_state) in
  ConvertDocument env (Some "report.pdf") (Some "report.txt") None None fresh_state
  = Normal UC_FAILURE st'
  /\ (UC_FAILURE = UC_SUCCESS \/ UC_FAILURE = UC_FAILURE \/ UC_FAILURE = UC_ERROR)
  /\ (UC_FAILURE = UC_SUCCESS ->
        g_lastError st' = "" \/ g_lastError st' = "Failed to execute Python CLI")
  /\ (UC_FAILURE = UC_FAILURE ->
        g_lastError st' = "Conversion failed - output file not created"
        \/ g_lastError st' = "Failed to execute Python CLI").
Proof.
  cbv zeta.
  assert (H : ConvertDocument (host (tool_prints "no converter for this format"))
                (Some "report.pdf") (Some "report.txt") None None fresh_state
              = Normal UC_FAILURE
                  (set_lastError "Conversion failed - output file not created"
                     (log_spawn
                        (BuildCLICommand (host (tool_prints "no converter for this format"))
                           "report.pdf" "report.txt" None None)
                        fresh_state)))
    by (vm_compute; reflexivity).
  split; [exact H |].
  exact (ConvertDocument_status_and_lastError _ _ _ _ _ _ _ _ H).
Defined.

Section Boundary.
Context (env : Env).

Lemma ConvertDocument_terminated_cases
    (inputFile outputFile inputFormat outputFormat : option string) (st : State) :
  ConvertDocument env inputFile outputFile inputFormat outputFormat st = Terminated ->
  handler_returns env = false
  /\ exists inFile outFile,
       inputFile = Some inFile /\ outputFile = Some outFile
       /\ ((ifstream_open inFile (files st) = None /\ (490 <= strlen inFile)%nat)
           \/ (is_Some (ifstream_open inFile (files st))
               /\ exists what fs',
                    popen env (BuildCLICommand env inFile outFile inputFormat outputFormat)
                      (files st) = PipeThrow (StdException what) fs'
                    /\ (501 <= strlen what)%nat)).
Proof.
  destruct inputFile as [inFile|]; [destruct outputFile as [outFile|] |];
    [| rewrite ConvertDocument_null_path by auto; discriminate ..].
  destruct (ifstream_open inFile (files st)) as [bytes|] eqn:Hopen.
  - assert (Hin : is_Some (ifstream_open inFile (files st))) by (rewrite Hopen; eauto).
    set (command := BuildCLICommand env inFile outFile inputFormat outputFormat).
    pose proof (ExecutePythonCLI_cases env command (set_lastError "" st)) as Hrun.
    cbn [files set_lastError] in Hrun.
    destruct (popen env command (files st)) as [|out fs'|e fs'] eqn:Hp.
    + rewrite (ConvertDocument_after_helper env _ _ _ _ _ _ _ Hin Hrun).
      destruct (bool_decide _); discriminate.
    + rewrite (ConvertDocument_after_helper env _ _ _ _ _ _ _ Hin Hrun).
      destruct (bool_decide _); discriminate.
    + rewrite (ConvertDocument_after_throw _ _ _ _ _ _ _ _ Hin Hrun).
      destruct e as [what|]; [| discriminate].
      unfold bind, sprintf_s_lastError, fits, invalid_parameter.
      destruct (bool_decide_reflect
                  (Z.of_nat (strlen ("Exception: " +:+ what))
                   < Z.of_nat sizeof_g_lastError)) as [Hfit | Hfit]; [discriminate |].
      destruct (handler_returns env); [discriminate |].
      intros _. split; [reflexivity |]. exists inFile, outFile.
      repeat split. right. split; [exact Hin |].
      exists what, fs'. split; [exact Hp |].
      unfold strlen, sizeof_g_lastError in *. rewrite str_length_app in Hfit.
      simpl in Hfit. lia.
  - unfold ConvertDocument, clear_lastError, bind.
    rewrite FileExists_false by exact Hopen. cbn [negb].
    unfold sprintf_s_lastError, fits, invalid_parameter.
    destruct (bool_decide_reflect
                (Z.of_nat (strlen ("Input file not found: " +:+ inFile))
                 < Z.of_nat sizeof_g_lastError)) as [Hfit | Hfit]; [discriminate |].
    destruct (handler_returns env); [discriminate |].
    intros _. split; [reflexivity |]. exists inFile, outFile.
    repeat split. left. split; [exact Hopen |].
    unfold strlen, sizeof_g_lastError in *. rewrite str_length_app in Hfit.
    simpl in Hfit. lia.
Qed.

(** X7: ConvertDocument ends the process in two situations only, both under
    a handler that does not return: the input file is missing and its path
    has 490 characters or more, or the helper threw a [std::exception]
    whose text has 501 characters or more. *)
Theorem ConvertDocument_ends_process_only_on_overflow
    (inputFile outputFile inputFormat outputFormat : option string) (st : State) :
  ConvertDocument env inputFile outputFile inputFormat outputFormat st = Terminated ->
  handler_returns env = false
  /\ exists inFile outFile,
       inputFile = Some inFile /\ outputFile = Some outFile
       /\ ((ifstream_open inFile (files st) = None /\ (490 <= strlen inFile)%nat)
           \/ (is_Some (ifstream_open inFile (files st))
               /\ exists what fs',
                    popen env (BuildCLICommand env inFile outFile inputFormat outputFormat)
                      (files st) = PipeThrow (StdException what) fs'
                    /\ (501 <= strlen what)%nat)).
Proof. apply ConvertDocument_terminated_cases. Qed.

End Boundary.

Lemma ConvertDocument_ends_process_only_on_overflow_witness :
  ConvertDocument (host no_shell) (Some long_path) (Some "out.txt") None None fresh_state
  = Terminated
  /\ handler_returns (host no_shell) = false
  /\ exists inFile outFile,
       Some long_path = Some inFile /\ Some "out.txt" = Some outFile
       /\ ((ifstream_open inFile (files fresh_state) = None /\ (490 <= strlen inFile)%nat)
           \/ (is_Some (ifstream_open inFile (files fresh_state))
               /\ exists what fs',
                    popen (host no_shell)
                      (BuildCLICommand (host no_shell) inFile outFile None None)
                      (files fresh_state) = PipeThrow (StdException what) fs'
                    /\ (501 <= strlen what)%nat)).
Proof.
  assert (H : ConvertDocument (host no_shell) (Some long_path) (Some "out.txt") None None
                fresh_state = Terminated)
    by (vm_compute; reflexivity).
  split; [exact H |].
  exact (ConvertDocument_ends_process_only_on_overflow _ _ _ _ _ _ H).
Defined.

Section LastError.
Context (env : Env).

Lemma write_then_ret_bounded {A} (m : M unit) (a r : A) (st st' : State) :
  (forall u st1, m st = Normal u st1 ->
     (strlen (g_lastError st1) < sizeof_g_lastError)%nat
     /\ spawned st1 = spawned st /\ files st1 = files st) ->
  (m >> ret a) st = Normal r st' ->
  (strlen (g_lastError st') < sizeof_g_lastError)%nat
  /\ spawned st' = spawned st /\ files st' = files st.
Proof.
  intros Hm. unfold bind, ret.
  destruct (m st) as [u st1 | |] eqn:Hrun; [| discriminate ..].
  intros [= _ <-]. now apply (Hm u).
Qed.

(** X9: the last-error text never outgrows its buffer.  After
    ConvertDocument, TestConnection or ConvertBatch it has at most 511
    characters, whatever was there before and however long the paths and
    exception texts are; GetFileInfo keeps the bound if it held before. *)
Theorem lastError_within_capacity
    (a b c d : option string) (bufferSize : Z) (st st' : State) :
  (forall status, ConvertDocument env a b c d st = Normal status st' ->
     (strlen (g_lastError st') < sizeof_g_lastError)%nat)
  /\ (forall status, TestConnection env st = Normal status st' ->
        (strlen (g_lastError st') < sizeof_g_lastError)%nat)
  /\ (forall status, ConvertBatch env a b c d st = Normal status st' ->
        (strlen (g_lastError st') < sizeof_g_lastError)%nat)
  /\ (forall result, GetFileInfo env a b bufferSize st = Normal result st' ->
        (strlen (g_lastError st) < sizeof_g_lastError)%nat ->
        (strlen (g_lastError st') < sizeof_g_lastError)%nat).
Proof.
  split; [| split; [| split]].
  - intros status. destruct a as [inFile|]; [destruct b as [outFile|] |];
      [| rewrite ConvertDocument_null_path by auto; intros [= _ <-]; vm_compute; lia ..].
    destruct (ifstream_open inFile (files st)) as [bytes|] eqn:Hopen.
    + assert (Hin : is_Some (ifstream_open inFile (files st)))
        by (rewrite Hopen; eauto).
      set (command := BuildCLICommand env inFile outFile c d).
      destruct (ExecutePythonCLI env command (set_lastError "" st))
        as [output st1 | e st1 |] eqn:Hrun.
      * rewrite (ConvertDocument_after_helper env _ _ _ _ _ _ _ Hin Hrun).
        destruct (ExecutePythonCLI_lastError _ _ _ _ _ Hrun) as [Hl | Hl];
          cbn [g_lastError set_lastError] in Hl;
          destruct (bool_decide (is_Some (ifstream_open outFile (files st1))));
          intros [= _ <-]; cbn [g_lastError set_lastError]; rewrite ?Hl;
          vm_compute; lia.
      * rewrite (ConvertDocument_after_throw _ _ _ _ _ _ _ _ Hin Hrun).
        destruct e as [what|]; [| intros [= _ <-]; vm_compute; lia].
        intros H. eapply write_then_ret_bounded; [| exact H].
        intros u st2. apply sprintf_s_lastError_bounded.
      * pose proof (ExecutePythonCLI_cases env command (set_lastError "" st)) as Hc.
        destruct (popen env command (files (set_lastError "" st)));
          rewrite Hc in Hrun; discriminate.
    + unfold ConvertDocument, clear_lastError. unfold bind at 1 2.
      rewrite FileExists_false by exact Hopen. cbn [negb].
      intros H. eapply write_then_ret_bounded; [| exact H].
      intros u st2. apply sprintf_s_lastError_bounded.
  - intros status. rewrite TestConnection_after_probe.
    destruct (ExecutePythonCLI env probe_command (set_lastError "" st))
      as [output st1 | e st1 |] eqn:Hrun; [| intros [= _ <-]; vm_compute; lia
                                            | discriminate].
    destruct (string_find "Python" output); [| intros [= _ <-]; vm_compute; lia].
    destruct (bool_decide _); [| intros [= _ <-]; vm_compute; lia].
    intros [= _ <-].
    destruct (ExecutePythonCLI_lastError _ _ _ _ _ Hrun) as [Hl | Hl];
      cbn [g_lastError set_lastError] in Hl; rewrite Hl; vm_compute; lia.
  - intros status [= _ <-]. vm_compute. lia.
  - intros result H Hbefore. unfold GetFileInfo in H.
    destruct a as [filePath|]; [destruct b as [held|] |];
      [| injection H as _ <-; vm_compute; lia ..].
    destruct (bool_decide (bufferSize <= 0));
      [injection H as _ <-; vm_compute; lia |].
    unfold bind at 1, FileExists in H.
    destruct (bool_decide (is_Some (ifstream_open filePath (files st))));
      cbn [negb] in H.
    + unfold bind at 1 in H.
      destruct (ifstream_open filePath (files st)) as [bytes|];
        [| injection H as _ <-; vm_compute; lia].
      unfold bind, sprintf_s_size, invalid_parameter, ret in H.
      destruct (fits bufferSize _); [injection H as _ <-; exact Hbefore |].
      destruct (handler_returns env); [injection H as _ <-; exact Hbefore | discriminate].
    + eapply write_then_ret_bounded; [| exact H].
      intros u st2. apply sprintf_s_lastError_bounded.
Qed.

(** X10: ConvertDocument, TestConnection and ConvertBatch begin by
    overwriting the last-error text, so what an earlier call left there has
    no influence on what they return or on the state they leave. *)
Theorem prior_error_has_no_influence
    (a b c d : option string) (st : State) (old : string) :
  ConvertDocument env a b c d (set_lastError old st) = ConvertDocument env a b c d st
  /\ TestConnection env (set_lastError old st) = TestConnection env st
  /\ ConvertBatch env a b c d (set_lastError old st) = ConvertBatch env a b c d st.
Proof. repeat split. Qed.

(** X12: whenever TestConnection returns, it has handed exactly one
    command to [_popen], the version query; the converter is not run. *)
Theorem TestConnection_probes_once (st st' : State) (status : Z) :
  TestConnection env st = Normal status st' ->
  spawned st' = probe_command :: spawned st.
Proof.
  rewrite TestConnection_after_probe.
  pose proof (ExecutePythonCLI_cases env probe_command (set_lastError "" st)) as H.
  destruct (popen env probe_command (files (set_lastError "" st))); rewrite H.
  - now intros [= _ <-].
  - destruct (string_find "Python" _); [destruct (bool_decide _) |];
      now intros [= _ <-].
  - now intros [= _ <-].
Qed.

End LastError.

Lemma TestConnection_probes_once_witness :
  TestConnection (host (tool_prints "Python 3.11.4")) installed_state
  = Normal UC_SUCCESS (log_spawn probe_command installed_state)
  /\ spawned (log_spawn probe_command installed_state)
     = probe_command :: spawned installed_state.
Proof.
  assert (H : TestConnection (host (tool_prints "Python 3.11.4")) installed_state
              = Normal UC_SUCCESS (log_spawn probe_command installed_state))
    by (vm_compute; reflexivity).
  split; [exact H |].
  exact (TestConnection_probes_once _ _ _ _ H).
Defined.

(** Two tools that write the same report.txt and print different things:
    the same answer. *)
Lemma ConvertDocument_ignores_output_text_witness :
  let loud := host (tool_writes "report.txt" "Traceback: fatal error") in
  let quiet := host (tool_writes "report.txt" "") in
  ConvertDocument loud (Some "report.pdf") (Some "report.txt") None (Some "txt") fresh_state
  = ConvertDocument quiet (Some "report.pdf") (Some "report.txt") None (Some "txt")
      fresh_state.
Proof.
  cbv zeta.
  apply (ConvertDocument_ignores_output_text
           (host (tool_writes "report.txt" ""))
           (host (tool_writes "report.txt" "Traceback: fatal error"))
           "report.pdf" "report.txt" None (Some "txt") fresh_state
           "" "Traceback: fatal error"
           (<["report.txt" := [Byte.x68; Byte.x69]]> sample_files)).
  - reflexivity.
  - exists sample_pdf. reflexivity.
  - reflexivity.
  - reflexivity.
Defined.

(** ** GetFileInfo *)

Section FileInfo.
Context (env : Env).

(** The text GetFileInfo formats for a file of [n] bytes. *)
Lemma GetFileInfo_outcomes
    (filePath held : string) (bufferSize : Z) (st : State) :
  0 < bufferSize ->
  GetFileInfo env (Some filePath) (Some held) bufferSize st
  = match ifstream_open filePath (files st) with
    | Some bytes =>
        (let* text := sprintf_s_size env bufferSize
                        (to_long_long (Z.of_nat (length bytes))) in
         ret (UC_SUCCESS, Some text)) st
    | None =>
        (sprintf_s_lastError env "File not found: " filePath >>
         ret (UC_ERROR, Some held)) st
    end.
Proof.
  intros Hcap. unfold GetFileInfo.
  rewrite bool_decide_eq_false_2 by lia.
  unfold bind at 1, FileExists.
  destruct (ifstream_open filePath (files st)) as [bytes|] eqn:Hopen.
  - rewrite bool_decide_eq_true_2 by eauto. cbn [negb].
    unfold bind at 1. now rewrite Hopen.
  - rewrite bool_decide_eq_false_2 by (intros [x Hx]; discriminate).
    reflexivity.
Qed.

(** X13: for a file of N bytes that opens and a declared capacity that
    holds the text and its NUL, GetFileInfo returns SUCCESS, the buffer
    holds "Size: N bytes" with N in decimal, and the state (last-error
    text included) is exactly as before. *)
Theorem GetFileInfo_writes_size
    (filePath held : string) (bytes : list Byte.byte) (bufferSize : Z) (st : State) :
  ifstream_open filePath (files st) = Some bytes ->
  Z.of_nat (length bytes) < 2 ^ 63 ->
  Z.of_nat (strlen ("Size: " +:+ pretty (Z.of_nat (length bytes)) +:+ " bytes"))
    < bufferSize ->
  GetFileInfo env (Some filePath) (Some held) bufferSize st
  = Normal (UC_SUCCESS,
            Some ("Size: " +:+ pretty (Z.of_nat (length bytes)) +:+ " bytes")) st.
Proof.
  intros Hopen Hsize Hcap.
  rewrite GetFileInfo_outcomes by lia. rewrite Hopen.
  rewrite to_long_long_small by lia.
  unfold bind, sprintf_s_size, fits.
  rewrite bool_decide_eq_true_2 by exact Hcap. reflexivity.
Qed.

(** X14: when the declared capacity does not hold the text, nothing of
    the size reaches the caller.  Under the CRT's own handler the process
    ends; under a handler that returns the buffer is emptied and the
    status is SUCCESS all the same, because the result of [sprintf_s] is
    not looked at. *)
Theorem GetFileInfo_capacity_too_small
    (filePath held : string) (bytes : list Byte.byte) (bufferSize : Z) (st : State) :
  ifstream_open filePath (files st) = Some bytes ->
  Z.of_nat (length bytes) < 2 ^ 63 ->
  0 < bufferSize
    <= Z.of_nat (strlen ("Size: " +:+ pretty (Z.of_nat (length bytes)) +:+ " bytes")) ->
  GetFileInfo env (Some filePath) (Some held) bufferSize st
  = if handler_returns env then Normal (UC_SUCCESS, Some "") st else Terminated.
Proof.
  intros Hopen Hsize Hcap.
  rewrite GetFileInfo_outcomes by lia. rewrite Hopen.
  rewrite to_long_long_small by lia.
  unfold bind, sprintf_s_size, fits, invalid_parameter.
  rewrite bool_decide_eq_false_2 by lia.
  destruct (handler_returns env); reflexivity.
Qed.

(** X15: GetFileInfo starts no subprocess and leaves the files alone;
    what it writes into the caller's buffer is shorter than the declared
    capacity; and a call that returns SUCCESS has not touched the
    last-error text. *)
Theorem GetFileInfo_effects
    (filePath infoBuffer : option string) (bufferSize : Z) (st st' : State)
    (status : Z) (buffer : option string) :
  GetFileInfo env filePath infoBuffer bufferSize st = Normal (status, buffer) st' ->
  spawned st' = spawned st
  /\ files st' = files st
  /\ (buffer = infoBuffer
      \/ exists text, buffer = Some text /\ Z.of_nat (strlen text) < bufferSize)
  /\ (status = UC_SUCCESS -> g_lastError st' = g_lastError st).
Proof.
  intros H.
  assert (Hinv : forall st1 : State,
             Normal (UC_ERROR, infoBuffer)
               (set_lastError "Invalid parameters for GetFileInfo" st1)
             = Normal (status, buffer) st' ->
             st1 = st ->
             spawned st' = spawned st /\ files st' = files st
             /\ (buffer = infoBuffer
                 \/ exists text, buffer = Some text
                                 /\ Z.of_nat (strlen text) < bufferSize)
             /\ (status = UC_SUCCESS -> g_lastError st' = g_lastError st)).
  { intros st1 [= <- <- <-] ->. repeat split; auto. discriminate. }
  destruct filePath as [filePath|]; [destruct infoBuffer as [held|] |];
    [| exact (Hinv st H eq_refl) ..].
  destruct (bool_decide_reflect (bufferSize <= 0)) as [Hcap | Hcap].
  - rewrite GetFileInfo_invalid_parameters in H by auto. exact (Hinv st H eq_refl).
  - rewrite GetFileInfo_outcomes in H by lia.
    destruct (ifstream_open filePath (files st)) as [bytes|].
    + unfold bind, sprintf_s_size, invalid_parameter, ret in H.
      destruct (fits bufferSize _) eqn:Hfit.
      * injection H as <- <- <-. repeat split; auto. right. eexists; split; [reflexivity |].
        unfold fits in Hfit. now apply bool_decide_eq_true_1 in Hfit.
      * destruct (handler_returns env); [| discriminate].
        injection H as <- <- <-. repeat split; auto. right.
        exists "". split; [reflexivity | simpl; lia].
    + unfold bind in H.
      destruct (sprintf_s_lastError env "File not found: " filePath st)
        as [u st1 | |] eqn:Hw; [| discriminate ..].
      apply sprintf_s_lastError_bounded in Hw as (_ & Hs & Hf).
      injection H as <- <- <-. repeat split; auto. discriminate.
Qed.

End FileInfo.

(** report.pdf has four bytes; "Size: 4 bytes" takes 13 characters, so a
    capacity of 14 is the least that will do. *)
Lemma GetFileInfo_writes_size_witness :
  ifstream_open "report.pdf" (files fresh_state) = Some sample_pdf
  /\ GetFileInfo (host no_shell) (Some "report.pdf") (Some "junk") 14 fresh_state
     = Normal (UC_SUCCESS, Some ("Size: " +:+ pretty 4 +:+ " bytes")) fresh_state.
Proof.
  split; [reflexivity |].
  apply (GetFileInfo_writes_size (host no_shell) "report.pdf" "junk" sample_pdf 14
           fresh_state).
  - reflexivity.
  - reflexivity.
  - reflexivity.
Defined.

Lemma GetFileInfo_capacity_too_small_witness :
  GetFileInfo (lenient_host no_shell) (Some "report.pdf") (Some "junk") 13 fresh_state
  = Normal (UC_SUCCESS, Some "") fresh_state
  /\ GetFileInfo (host no_shell) (Some "report.pdf") (Some "junk") 13 fresh_state
     = Terminated.
Proof.
  split.
  - apply (GetFileInfo_capacity_too_small (lenient_host no_shell)
             "report.pdf" "junk" sample_pdf 13 fresh_state).
    + reflexivity.
    + reflexivity.
    + vm_compute. split; [reflexivity | discriminate].
  - apply (GetFileInfo_capacity_too_small (host no_shell)
             "report.pdf" "junk" sample_pdf 13 fresh_state).
    + reflexivity.
    + reflexivity.
    + vm_compute. split; [reflexivity | discriminate].
Defined.

Lemma GetFileInfo_effects_witness :
  GetFileInfo (host no_shell) (Some "missing.pdf") (Some "junk") 64 stale_state
  = Normal (UC_ERROR, Some "junk")
      (set_lastError "File not found: missing.pdf" stale_state)
  /\ spawned (set_lastError "File not found: missing.pdf" stale_state)
     = spawned stale_state
  /\ files (set_lastError "File not found: missing.pdf" stale_state) = files stale_state
  /\ (Some "junk" = Some "junk"
      \/ exists text, Some "junk" = Some text /\ Z.of_nat (strlen text) < 64)
  /\ (UC_ERROR = UC_SUCCESS ->
      g_lastError (set_lastError "File not found: missing.pdf" stale_state)
      = g_lastError stale_state).
Proof.
  assert (H : GetFileInfo (host no_shell) (Some "missing.pdf") (Some "junk") 64 stale_state
              = Normal (UC_ERROR, Some "junk")
                  (set_lastError "File not found: missing.pdf" stale_state))
    by (vm_compute; reflexivity).
  split; [exact H |].
  exact (GetFileInfo_effects _ _ _ _ _ _ _ _ H).
Defined.

(** ** The command line: directory and quoting *)

Lemma find_last_of_none (chars s : string) :
  find_last_of chars s = None <-> has_char_in chars s = false.
Proof.
  induction s as [|c s IH]; [split; reflexivity |].
  cbn [find_last_of has_char_in].
  destruct (find_last_of chars s) as [i|].
  - split; [discriminate |]. intros H. apply orb_false_iff in H as [_ H].
    apply IH in H. discriminate.
  - destruct IH as [IH _]. rewrite (IH eq_refl), orb_false_r.
    destruct (char_in c chars); split; congruence.
Qed.

(** [find_last_of] answers with the place of a character of [chars] after
    which no further one comes, and [substr(0, n)] is what stands before
    it. *)
Lemma find_last_of_split (chars s : string) (n : nat) :
  find_last_of chars s = Some n ->
  exists sep rest,
    s = substr0 n s +:+ String sep rest
    /\ String.length (substr0 n s) = n
    /\ char_in sep chars = true
    /\ has_char_in chars rest = false.
Proof.
  revert n. induction s as [|c s IH]; intros n; [discriminate |].
  cbn [find_last_of].
  destruct (find_last_of chars s) as [i|] eqn:Hs.
  - intros [= <-]. destruct (IH i eq_refl) as (sep & rest & Heq & Hlen & Hsep & Hrest).
    exists sep, rest. unfold substr0 in *. cbn [String.substring].
    rewrite str_app_cons, <- Heq. cbn [String.length]. rewrite Hlen. auto.
  - destruct (char_in c chars) eqn:Hc; [| discriminate].
    intros [= <-]. exists c, s. unfold substr0. cbn [String.substring].
    destruct s; repeat split; auto; now apply find_last_of_none.
Qed.

Lemma substr0_length (n : nat) (s : string) :
  (String.length (substr0 n s) <= n)%nat.
Proof.
  unfold substr0. revert s.
  induction n as [|n IH]; intros [|c s]; simpl; try lia.
  specialize (IH s). lia.
Qed.

Section CommandLine.
Context (env : Env).

(** X17: the directory the command changes into is the module path (cut
    to 259 characters) up to, and not including, its last slash or
    backslash; a path without either is taken whole. *)
Theorem BuildCLICommand_directory
    (inputFile outputFile : string) (inputFormat outputFormat : option string) :
  let path := GetModuleFileNameA env MAX_PATH in
  exists dir rest,
    BuildCLICommand env inputFile outputFile inputFormat outputFormat
    = "cd /d " +:+ quoted dir +:+ rest
    /\ (String.length path <= 259)%nat
    /\ ((has_char_in "\/" path = false /\ dir = path)
        \/ exists sep name,
             path = dir +:+ String sep name
             /\ char_in sep "\/" = true
             /\ has_char_in "\/" name = false).
Proof.
  intros path. exists (install_dir env). eexists. split; [| split].
  - rewrite BuildCLICommand_command_line. unfold command_line. reflexivity.
  - subst path. unfold GetModuleFileNameA, MAX_PATH.
    apply (substr0_length (260 - 1)).
  - unfold install_dir. fold (GetModuleFileNameA env MAX_PATH). fold path.
    destruct (find_last_of "\/" path) as [n|] eqn:Hfind.
    + right. destruct (find_last_of_split _ _ _ Hfind)
        as (sep & name & Heq & _ & Hsep & Hname).
      exists sep, name. auto.
    + left. split; [now apply find_last_of_none | reflexivity].
Qed.

(** X18: the paths are put between quotes as they are, without escaping.
    An output path that holds a quote can therefore carry arguments of its
    own: with no output-format hint at all, such a path gives the very
    command that a plain path and a quoted hint give. *)
Theorem BuildCLICommand_does_not_escape
    (inputFile outputFile fmt : string) (inputFormat : option string) :
  BuildCLICommand env inputFile
    (outputFile +:+ dquote +:+ " -t " +:+ dquote +:+ fmt) inputFormat None
  = BuildCLICommand env inputFile outputFile inputFormat
      (Some (dquote +:+ fmt +:+ dquote)).
Proof.
  unfold BuildCLICommand, dquote.
  rewrite bool_decide_eq_true_2
    by (unfold strlen; rewrite str_app_cons; simpl; lia).
  rewrite !str_app_assoc. reflexivity.
Qed.

(** X19: the wrappers differ only in the output format they ask for.
    Those with the same target are the same operation whatever the input
    file is: ConvertPDFToText, ConvertDOCXToText and ConvertRTFToText on
    one side, the four Markdown wrappers on the other. *)
Theorem wrappers_same_target (inputFile outputFile : option string) (st : State) :
  ConvertDOCXToText env inputFile outputFile st
    = ConvertPDFToText env inputFile outputFile st
  /\ ConvertRTFToText env inputFile outputFile st
    = ConvertPDFToText env inputFile outputFile st
  /\ ConvertDOCXToMarkdown env inputFile outputFile st
    = ConvertPDFToMarkdown env inputFile outputFile st
  /\ ConvertHTMLToMarkdown env inputFile outputFile st
    = ConvertPDFToMarkdown env inputFile outputFile st
  /\ ConvertRTFToMarkdown env inputFile outputFile st
    = ConvertPDFToMarkdown env inputFile outputFile st.
Proof.
  repeat split; destruct inputFile, outputFile; reflexivity.
Qed.

End CommandLine.

(** ** Reading the size back *)

Lemma str_app_inj_r (a b c : string) : a +:+ c = b +:+ c -> a = b.
Proof.
  revert b. induction a as [|x a IH]; intros [|y b] H.
  - reflexivity.
  - apply (f_equal String.length) in H.
    rewrite !str_length_app in H. simpl in H. lia.
  - apply (f_equal String.length) in H.
    rewrite !str_length_app in H. simpl in H. lia.
  - rewrite !str_app_cons in H. injection H as -> H. now rewrite (IH b H).
Qed.

Section SizeText.
Context (env : Env).

(** A call that returns SUCCESS has opened the file, and the buffer holds
    the formatted size or, after an overflow under a returning handler,
    nothing. *)
Lemma GetFileInfo_success_text
    (filePath infoBuffer : option string) (bufferSize : Z) (st st' : State)
    (text : string) :
  GetFileInfo env filePath infoBuffer bufferSize st
  = Normal (UC_SUCCESS, Some text) st' ->
  exists path bytes,
    filePath = Some path
    /\ ifstream_open path (files st) = Some bytes
    /\ (text = "" \/
        text = "Size: " +:+ pretty (to_long_long (Z.of_nat (length bytes))) +:+ " bytes").
Proof.
  intros H.
  destruct filePath as [path|]; [destruct infoBuffer as [held|] |];
    [| rewrite GetFileInfo_invalid_parameters in H by auto; discriminate ..].
  destruct (bool_decide_reflect (bufferSize <= 0)) as [Hcap | Hcap].
  - rewrite GetFileInfo_invalid_parameters in H by auto. discriminate.
  - rewrite GetFileInfo_outcomes in H by lia.
    destruct (ifstream_open path (files st)) as [bytes|] eqn:Hopen.
    + exists path, bytes. split; [reflexivity |]. split; [exact Hopen |].
      unfold bind, sprintf_s_size, invalid_parameter, ret in H.
      destruct (fits bufferSize _); [injection H as <- _; now right |].
      destruct (handler_returns env); [injection H as <- _; now left | discriminate].
    + unfold bind in H.
      destruct (sprintf_s_lastError env "File not found: " path st); discriminate.
Qed.

(** X20: the size can be read back from the text.  When two calls return
    SUCCESS with the same non-empty text in the buffer, the two files have
    the same number of bytes. *)
Theorem GetFileInfo_text_determines_size
    (path1 path2 : string) (buffer1 buffer2 : option string) (size1 size2 : Z)
    (st1 st1' st2 st2' : State) (bytes1 bytes2 : list Byte.byte) (text : string) :
  ifstream_open path1 (files st1) = Some bytes1 ->
  ifstream_open path2 (files st2) = Some bytes2 ->
  Z.of_nat (length bytes1) < 2 ^ 63 ->
  Z.of_nat (length bytes2) < 2 ^ 63 ->
  GetFileInfo env (Some path1) buffer1 size1 st1 = Normal (UC_SUCCESS, Some text) st1' ->
  GetFileInfo env (Some path2) buffer2 size2 st2 = Normal (UC_SUCCESS, Some text) st2' ->
  text <> "" ->
  length bytes1 = length bytes2.
Proof.
  intros Hopen1 Hopen2 Hlen1 Hlen2 H1 H2 Htext.
  apply GetFileInfo_success_text in H1 as (p1 & b1 & [= <-] & Ho1 & [E1 | E1]);
    [contradiction |].
  apply GetFileInfo_success_text in H2 as (p2 & b2 & [= <-] & Ho2 & [E2 | E2]);
    [contradiction |].
  rewrite Hopen1 in Ho1. injection Ho1 as <-.
  rewrite Hopen2 in Ho2. injection Ho2 as <-.
  rewrite to_long_long_small in E1 by lia.
  rewrite to_long_long_small in E2 by lia.
  rewrite E1 in E2. apply String.app_inj in E2.
  assert (Hp : pretty (Z.of_nat (length bytes1)) = pretty (Z.of_nat (length bytes2))).
  { apply (str_app_inj_r _ _ " bytes"). exact E2. }
  apply (inj pretty) in Hp. lia.
Qed.

End SizeText.

Lemma GetFileInfo_text_determines_size_witness :
  let st2 := {| g_lastError := "";
                files := <["notes.txt" := [Byte.x61; Byte.x62; Byte.x63; Byte.x0a]]>
                           sample_files;
                spawned := [] |} in
  GetFileInfo (host no_shell) (Some "report.pdf") (Some "") 32 fresh_state
  = Normal (UC_SUCCESS, Some "Size: 4 bytes") fresh_state
  /\ GetFileInfo (host no_shell) (Some "notes.txt") (Some "") 64 st2
     = Normal (UC_SUCCESS, Some "Size: 4 bytes") st2
  /\ length sample_pdf = length [Byte.x61; Byte.x62; Byte.x63; Byte.x0a].
Proof.
  cbv zeta.
  assert (H1 : GetFileInfo (host no_shell) (Some "report.pdf") (Some "") 32 fresh_state
               = Normal (UC_SUCCESS, Some "Size: 4 bytes") fresh_state)
    by (vm_compute; reflexivity).
  set (st2 := {| g_lastError := "";
                 files := <["notes.txt" := [Byte.x61; Byte.x62; Byte.x63; Byte.x0a]]>
                            sample_files;
                 spawned := [] |}).
  assert (H2 : GetFileInfo (host no_shell) (Some "notes.txt") (Some "") 64 st2
               = Normal (UC_SUCCESS, Some "Size: 4 bytes") st2)
    by (vm_compute; reflexivity).
  split; [exact H1 |]. split; [exact H2 |].
  apply (GetFileInfo_text_determines_size (host no_shell)
           "report.pdf" "notes.txt" (Some "") (Some "") 32 64
           fresh_state fresh_state st2 st2 sample_pdf
           [Byte.x61; Byte.x62; Byte.x63; Byte.x0a] "Size: 4 bytes").
  - reflexivity.
  - vm_compute. reflexivity.
  - reflexivity.
  - reflexivity.
  - exact H1.
  - exact H2.
  - discriminate.
Defined.
